(** * GPy.kern.src.rbf: the RBF kernel and its two "kernel kernel" variants

    A shallow embedding of [GPy/kern/src/rbf.py].

    Conventions of the embedding.
    - NumPy's float64 values are idealised as the real numbers [R]; [np.exp]
      and [np.sqrt] are [exp] and [sqrt] of the Standard Library.
    - A NumPy array is its shape together with its entries in row-major
      order, so [flatten] is the projection on the entries and an elementwise
      operation is a [map] over them.
    - Python exceptions are values of [exn]; a method that can raise returns
      a [result].
    - Code that lives outside [rbf.py] (the [Stationary] base class, SciPy's
      [cdist], the psi-statistics computer) is a field of the class
      [Collaborators]; the [Cache_this] decorator of paramz is modelled after
      the specification.
    - The hierarchy of linked parameters ([link_parameter],
      [unlink_parameter]) and the transformation [Logexp] are left out. *)

From Stdlib Require Import Reals Lra Lia List ZArith String Bool.
From stdpp Require Import base gmap strings.
Import ListNotations.

Open Scope R_scope.

(** ** Exceptions and results *)

Inductive exn : Set :=
| AssertionError
| IndexError
| ValueError
| TypeError
| AttributeError.

Inductive result (A : Type) : Type :=
| Ok (a : A)
| Raise (e : exn).

Arguments Ok {A} a.
Arguments Raise {A} e.

Definition bind {A B : Type} (m : result A) (f : A -> result B) : result B :=
  match m with
  | Ok a => f a
  | Raise e => Raise e
  end.

Definition rmap {A B : Type} (f : A -> B) (m : result A) : result B :=
  bind m (fun a => Ok (f a)).

Fixpoint mapM {A B : Type} (f : A -> result B) (l : list A) : result (list B) :=
  match l with
  | [] => Ok []
  | a :: l' => bind (f a) (fun b => bind (mapM f l') (fun bs => Ok (b :: bs)))
  end.

Notation "'let*' x ':=' m 'in' k" := (bind m (fun x => k))
  (at level 10, x name, m at level 100, k at level 200,
   format "'[v' 'let*'  x  ':='  m  'in' '/' k ']'").

Definition raises {A : Type} (m : result A) : Prop :=
  match m with Ok _ => False | Raise _ => True end.

(** ** NumPy arrays *)

Record ndarray : Type := mk_ndarray {
  shape : list nat;
  data : list R
}.

Definition ndim (a : ndarray) : nat := length (shape a).

Definition size_of (s : list nat) : nat := fold_right Nat.mul 1%nat s.

(** An array object is well formed when it has as many entries as its shape
    says. *)
Definition wf_ndarray (a : ndarray) : Prop :=
  length (data a) = size_of (shape a).

(** A Python float seen as a 0-dimensional array. *)
Definition scalar (x : R) : ndarray := {| shape := []; data := [x] |}.

(** [a.flatten()] *)
Definition flatten (a : ndarray) : list R := data a.

(** A NumPy ufunc, or an arithmetic expression in one array and Python
    floats: applied entry by entry, the shape is kept. *)
Definition elementwise (f : R -> R) (a : ndarray) : ndarray :=
  {| shape := shape a; data := map f (data a) |}.

(** The shape of an arithmetic expression in an array of shape [s] and arrays
    of shape [(1,)]: it is [s], and [(1,)] when [s] is the shape of a
    0-dimensional array. *)
Definition broadcast_size1 (s : list nat) : list nat :=
  match s with
  | [] => [1%nat]
  | _ => s
  end.

(** An arithmetic expression in one array and arrays of size one, such as the
    [Param] [variance]: applied entry by entry. *)
Definition elementwise1 (f : R -> R) (a : ndarray) : ndarray :=
  {| shape := broadcast_size1 (shape a); data := map f (data a) |}.

Definition nrows (a : ndarray) : nat := nth 0 (shape a) 0%nat.
Definition ncols (a : ndarray) : nat := nth 1 (shape a) 0%nat.

(** Entry [(i, j)] of a 2-dimensional array. *)
Definition get2 (a : ndarray) (i j : nat) : R :=
  nth (i * ncols a + j) (data a) 0.

(** [x.astype(np.int)] at one entry: the fractional part is dropped, towards
    zero. *)
Definition trunc (x : R) : Z :=
  if Rle_dec 0 x then Zfloor x else Zceil x.

Definition astype_int (l : list R) : list Z := map trunc l.

(** What NumPy does with an integer index [i] on an axis of length [n]:
    [0 <= i < n] is taken as it is, [-n <= i < 0] counts from the end, anything
    else is an [IndexError]. *)
Definition normalize_index (n : nat) (i : Z) : result nat :=
  if ((0 <=? i) && (i <? Z.of_nat n))%Z then Ok (Z.to_nat i)
  else if ((- Z.of_nat n <=? i) && (i <? 0))%Z then Ok (Z.to_nat (i + Z.of_nat n))
  else Raise IndexError.

(** [r[idx]] with an integer array [idx]: the rows of [r] the indices name. *)
Definition take_rows (r : ndarray) (idx : list Z) : result ndarray :=
  let m := size_of (tl (shape r)) in
  let* rows := mapM (normalize_index (nrows r)) idx in
  Ok {| shape := length idx :: tl (shape r);
        data := flat_map (fun i => firstn m (skipn (i * m) (data r))) rows |}.

(** [r[:, idx]] on a 2-dimensional [r]: the columns the indices name.  The
    indices are checked against the second axis also when [r] has no row. *)
Definition take_cols (r : ndarray) (idx : list Z) : result ndarray :=
  let m := ncols r in
  let* cols := mapM (normalize_index m) idx in
  Ok {| shape := [nrows r; length idx];
        data := flat_map (fun i => map (fun j => nth (i * m + j) (data r) 0) cols)
                  (seq 0 (nrows r)) |}.

(** [a / l] for an array [a] and a one-dimensional array [l], with NumPy's
    broadcasting: the last axis of [a] and the axis of [l] must agree or one of
    them must have length one (a 0-dimensional [a] counts as length one). *)
Definition div_broadcast (a : ndarray) (l : list R) : result ndarray :=
  let d := length l in
  let m := List.last (shape a) 1%nat in
  if (d =? 1)%nat then
    Ok {| shape := broadcast_size1 (shape a);
          data := map (fun x => x / hd 0 l) (data a) |}
  else if (m =? d)%nat then
    Ok {| shape := shape a;
          data := map (fun ix => snd ix / nth (fst ix mod d) l 0)
                      (combine (seq 0 (length (data a))) (data a)) |}
  else if (m =? 1)%nat then
    Ok {| shape := removelast (shape a) ++ [d];
          data := flat_map (fun x => map (fun c => x / c) l) (data a) |}
  else Raise ValueError.

(** Elementwise product of two one-dimensional arrays, with broadcasting. *)
Definition mul_broadcast (a b : list R) : result (list R) :=
  if (length a =? length b)%nat then Ok (zip_with Rmult a b)
  else if (length a =? 1)%nat then Ok (map (fun y => hd 0 a * y) b)
  else if (length b =? 1)%nat then Ok (map (fun x => x * hd 0 b) a)
  else Raise ValueError.

(** [dst[:] = src] on one-dimensional arrays: the new contents of [dst]. *)
Definition assign_slice (dst src : list R) : result (list R) :=
  if (length src =? length dst)%nat then Ok src
  else if (length src =? 1)%nat then Ok (repeat (hd 0 src) (length dst))
  else Raise ValueError.

(** [float(a)] on a one-dimensional array: only an array of size one
    converts. *)
Definition float (a : list R) : result R :=
  match a with
  | [x] => Ok x
  | _ => Raise TypeError
  end.

(** ** Parameters and kernel objects *)

(** A [Param]: a one-dimensional array of values with a gradient slot. *)
Record Param : Type := mk_Param {
  values : list R;
  gradient : list R
}.

Definition set_values (p : Param) (v : list R) : Param :=
  {| values := v; gradient := gradient p |}.

Definition set_gradient (p : Param) (g : list R) : Param :=
  {| values := values p; gradient := g |}.

Inductive psicomp_t : Set :=
| PSICOMP_RBF
| PSICOMP_RBF_GPU.

(** The attributes the [Stationary] base class owns.  [variance] is a [Param]
    of size one; its value and its gradient are kept as two reals. *)
Record Stationary : Type := mk_Stationary {
  input_dim : Z;
  active_dims : list Z;
  name : string;
  useGPU : bool;
  ARD : bool;
  variance : R;
  variance_gradient : R;
  lengthscale : Param
}.

Definition set_lengthscale (st : Stationary) (p : Param) : Stationary :=
  {| input_dim := input_dim st; active_dims := active_dims st; name := name st;
     useGPU := useGPU st; ARD := ARD st; variance := variance st;
     variance_gradient := variance_gradient st; lengthscale := p |}.

Definition set_variance_gradient (st : Stationary) (g : R) : Stationary :=
  {| input_dim := input_dim st; active_dims := active_dims st; name := name st;
     useGPU := useGPU st; ARD := ARD st; variance := variance st;
     variance_gradient := g; lengthscale := lengthscale st |}.

(** An [RBF] object.  The attribute [inv_l] exists only on a kernel built with
    [inv_l=True], hence the option. *)
Record rbf : Type := mk_rbf {
  base : Stationary;
  psicomp : psicomp_t;
  use_invLengthscale : bool;
  inv_l : option Param
}.

Definition set_base (k : rbf) (st : Stationary) : rbf :=
  {| base := st; psicomp := psicomp k;
     use_invLengthscale := use_invLengthscale k; inv_l := inv_l k |}.

Definition set_inv_l (k : rbf) (p : Param) : rbf :=
  {| base := base k; psicomp := psicomp k;
     use_invLengthscale := use_invLengthscale k; inv_l := Some p |}.

Definition set_use_invLengthscale (k : rbf) (b : bool) : rbf :=
  {| base := base k; psicomp := psicomp k;
     use_invLengthscale := b; inv_l := inv_l k |}.

(** An [RBFKernelKernel] object: an [RBF] with a metric for [cdist]. *)
Record rbf_kernel_kernel : Type := mk_rbf_kernel_kernel {
  kk_rbf : rbf;
  dist_metric : string;
  dm_kwargs_dict : list (string * R)
}.

(** An [RBFDistanceBuilderKernelKernel] object: an [RBF] with a distance
    builder, of which only [get_kernel] is used. *)
Record rbf_distance_builder_kernel_kernel : Type := mk_rbf_db_kernel_kernel {
  db_rbf : rbf;
  distance_builder : Z -> ndarray;
  n_models : Z
}.

(** The values that occur in the dictionaries of [to_dict] and
    [__getstate__]. *)
Inductive pyval : Type :=
| VNone
| VBool (b : bool)
| VInt (z : Z)
| VFloat (x : R)
| VStr (s : string)
| VInts (l : list Z)
| VFloats (l : list R)
| VPsicomp (p : psicomp_t).

(** The arguments [RBF.__init__] hands on to [Stationary.__init__]. *)
Record init_args : Type := mk_init_args {
  arg_input_dim : Z;
  arg_variance : R;
  arg_lengthscale : option (list R);
  arg_ARD : bool;
  arg_active_dims : option (list Z);
  arg_name : string;
  arg_useGPU : bool
}.

(** ** Collaborators

    What [rbf.py] calls and does not define: the methods it inherits from
    [Stationary] and calls through [super], SciPy's [cdist], the psi-statistics
    computer, and the contents of a freshly allocated gradient array.  The
    inherited methods see the attributes of [Stationary] only, but for the two
    pickling methods, which work on the whole attribute dictionary. *)
Class Collaborators : Type := {
  Stationary_init : init_args -> result Stationary;
  Stationary_parameters_changed : Stationary -> Stationary;
  Stationary_update_gradients_full :
    Stationary -> ndarray -> ndarray -> option ndarray -> result Stationary;
  Stationary_update_gradients_diag :
    Stationary -> ndarray -> ndarray -> result Stationary;
  Stationary_save_to_input_dict : Stationary -> gmap string pyval;
  cdist : ndarray -> ndarray -> string -> list (string * R) -> result ndarray;
  psiDerivativecomputations_var_lengthscale :
    psicomp_t -> rbf -> ndarray -> ndarray -> ndarray -> ndarray -> ndarray ->
    result (R * list R);
  new_gradient : nat -> list R;
  super_getstate : rbf -> gmap string pyval;
  super_setstate : rbf -> gmap string pyval -> rbf
}.

(** ** class RBF *)

Module RBF.
Section Methods.
Context {collab : Collaborators}.

(** [RBF.__init__]; [Param('inv_lengthscale', 1. / self.lengthscale ** 2,
    Logexp())] is a parameter with these values and a new gradient array. *)
Definition __init__ (args : init_args) (inv_l : bool) : result rbf :=
  let* st := Stationary_init args in
  let pc := if useGPU st then PSICOMP_RBF_GPU else PSICOMP_RBF in
  if inv_l then
    let v := map (fun l => 1 / l ^ 2) (values (lengthscale st)) in
    Ok {| base := st; psicomp := pc; use_invLengthscale := inv_l;
          inv_l := Some {| values := v; gradient := new_gradient (length v) |} |}
  else
    Ok {| base := st; psicomp := pc; use_invLengthscale := inv_l;
          inv_l := None |}.

(** The attribute [self.inv_l]. *)
Definition get_inv_l (self : rbf) : result Param :=
  match inv_l self with
  | Some p => Ok p
  | None => Raise AttributeError
  end.

(** The last three lines every [to_dict] shares, on the dictionary of the
    parent with its ["class"] entry set. *)
Definition add_inv_l (self : rbf) (input_dict : gmap string pyval)
  : result (gmap string pyval) :=
  let input_dict := <["inv_l" := VBool (use_invLengthscale self)]> input_dict in
  if use_invLengthscale self then
    let* p := get_inv_l self in
    let* x := float (values p) in
    Ok (<["lengthscale" := VFloat (sqrt (1 / x))]> input_dict)
  else Ok input_dict.

Definition to_dict (self : rbf) : result (gmap string pyval) :=
  let input_dict := Stationary_save_to_input_dict (base self) in
  let input_dict := <["class" := VStr "GPy.kern.RBF"]> input_dict in
  add_inv_l self input_dict.

(** [self.variance * np.exp(-0.5 * r ** 2)] at one entry [r]. *)
Definition K_of_r (self : rbf) (r : R) : R :=
  variance (base self) * exp (- 0.5 * r ^ 2).

(** [-r * self.K_of_r(r)] *)
Definition dK_dr (self : rbf) (r : R) : R :=
  - r * K_of_r self r.

(** [(r ** 2 - 1) * self.K_of_r(r)] *)
Definition dK2_drdr (self : rbf) (r : R) : R :=
  (r ^ 2 - 1) * K_of_r self r.

(** [-self.variance] *)
Definition dK2_drdr_diag (self : rbf) : R :=
  - variance (base self).

(** The three methods on an array argument: every operation in their bodies
    is elementwise, and [self.variance] is an array of size one. *)
Definition K_of_r_array (self : rbf) (r : ndarray) : ndarray :=
  elementwise1 (K_of_r self) r.

Definition dK_dr_array (self : rbf) (r : ndarray) : ndarray :=
  elementwise1 (dK_dr self) r.

Definition dK2_drdr_array (self : rbf) (r : ndarray) : ndarray :=
  elementwise1 (dK2_drdr self) r.

Definition __getstate__ (self : rbf) : gmap string pyval :=
  let dc := super_getstate self in
  if useGPU (base self) then
    <["useGPU" := VBool false]> (<["psicomp" := VPsicomp PSICOMP_RBF]> dc)
  else dc.

Definition __setstate__ (self : rbf) (state : gmap string pyval) : rbf :=
  super_setstate (set_use_invLengthscale self false) state.

(** [self.lengthscale[:] = 1. / np.sqrt(self.inv_l + 1e-200)], then the
    method of the parent. *)
Definition parameters_changed (self : rbf) : result rbf :=
  let* self1 :=
    if use_invLengthscale self then
      let* p := get_inv_l self in
      let ls := lengthscale (base self) in
      let* v := assign_slice (values ls)
                  (map (fun x => 1 / sqrt (x + 1e-200)) (values p)) in
      Ok (set_base self (set_lengthscale (base self) (set_values ls v)))
    else Ok self in
  Ok (set_base self1 (Stationary_parameters_changed (base self1))).

(** [self.inv_l.gradient = g * (self.lengthscale ** 3 / -2.)], the statement
    the three gradient methods end in when [use_invLengthscale] is set. *)
Definition project_inv_l_gradient (self : rbf) (g : list R) : result rbf :=
  if use_invLengthscale self then
    let* v := mul_broadcast g
                (map (fun l => l ^ 3 / - 2) (values (lengthscale (base self)))) in
    let* p := get_inv_l self in
    let* g' := assign_slice (gradient p) v in
    Ok (set_inv_l self (set_gradient p g'))
  else Ok self.

Definition update_gradients_expectations (self : rbf)
    (dL_dpsi0 dL_dpsi1 dL_dpsi2 Z variational_posterior : ndarray) : result rbf :=
  let* dL := psiDerivativecomputations_var_lengthscale (psicomp self) self
               dL_dpsi0 dL_dpsi1 dL_dpsi2 Z variational_posterior in
  let dL_dvar := fst dL in
  let dL_dlengscale := snd dL in
  let st := set_variance_gradient (base self) dL_dvar in
  let ls := lengthscale st in
  let* g := assign_slice (gradient ls) dL_dlengscale in
  let self := set_base self (set_lengthscale st (set_gradient ls g)) in
  project_inv_l_gradient self dL_dlengscale.

Definition update_gradients_diag (self : rbf) (dL_dKdiag X : ndarray)
  : result rbf :=
  let* st := Stationary_update_gradients_diag (base self) dL_dKdiag X in
  let self := set_base self st in
  project_inv_l_gradient self (gradient (lengthscale (base self))).

Definition update_gradients_full (self : rbf) (dL_dK X : ndarray)
    (X2 : option ndarray) : result rbf :=
  let* st := Stationary_update_gradients_full (base self) dL_dK X X2 in
  let self := set_base self st in
  project_inv_l_gradient self (gradient (lengthscale (base self))).

End Methods.
End RBF.

(** ** class RBFKernelKernel(RBF) *)

Module RBFKernelKernel.
Section Methods.
Context {collab : Collaborators}.

Definition __init__ (distance_metric : string)
    (dm_kwargs_dict : option (list (string * R))) (args : init_args)
    (inv_l : bool) : result rbf_kernel_kernel :=
  let* k := RBF.__init__ args inv_l in
  Ok {| kk_rbf := k;
        dist_metric := distance_metric;
        dm_kwargs_dict := match dm_kwargs_dict with
                          | None => []
                          | Some d => d
                          end |}.

Definition _unscaled_dist (self : rbf_kernel_kernel) (X : ndarray)
    (X2 : option ndarray) : result ndarray :=
  let X2 := match X2 with None => X | Some X2 => X2 end in
  cdist X X2 (dist_metric self) (dm_kwargs_dict self).

(** The body of [_scaled_dist], without its [Cache_this] decorator. *)
Definition _scaled_dist (self : rbf_kernel_kernel) (X : ndarray)
    (X2 : option ndarray) : result ndarray :=
  if ARD (base (kk_rbf self)) then
    let* r := _unscaled_dist self X X2 in
    div_broadcast r (values (lengthscale (base (kk_rbf self))))
  else
    let* r := _unscaled_dist self X X2 in
    div_broadcast r (values (lengthscale (base (kk_rbf self)))).

Definition to_dict (self : rbf_kernel_kernel) : result (gmap string pyval) :=
  let input_dict := Stationary_save_to_input_dict (base (kk_rbf self)) in
  let input_dict := <["class" := VStr "GPy.kern.RBFKernelKernel"]> input_dict in
  RBF.add_inv_l (kk_rbf self) input_dict.

End Methods.
End RBFKernelKernel.

(** ** class RBFDistanceBuilderKernelKernel(RBF) *)

Module RBFDistanceBuilderKernelKernel.
Section Methods.
Context {collab : Collaborators}.

Definition __init__ (distance_builder : Z -> ndarray) (n_models : Z)
    (args : init_args) (inv_l : bool)
  : result rbf_distance_builder_kernel_kernel :=
  let* k := RBF.__init__ args inv_l in
  if (arg_input_dim args =? 1)%Z then
    Ok {| db_rbf := k; distance_builder := distance_builder;
          n_models := n_models |}
  else Raise AssertionError.

Definition _unscaled_dist (self : rbf_distance_builder_kernel_kernel)
    (X : ndarray) (X2 : option ndarray) : result ndarray :=
  let X2 := match X2 with None => X | Some X2 => X2 end in
  let r := distance_builder self (n_models self) in
  if (ndim r =? 2)%nat && (nrows r =? ncols r)%nat then
    let* r := take_rows r (astype_int (flatten X)) in
    take_cols r (astype_int (flatten X2))
  else Raise AssertionError.

(** The body of [_scaled_dist], without its [Cache_this] decorator. *)
Definition _scaled_dist (self : rbf_distance_builder_kernel_kernel)
    (X : ndarray) (X2 : option ndarray) : result ndarray :=
  if ARD (base (db_rbf self)) then
    let* r := _unscaled_dist self X X2 in
    div_broadcast r (values (lengthscale (base (db_rbf self))))
  else
    let* r := _unscaled_dist self X X2 in
    div_broadcast r (values (lengthscale (base (db_rbf self)))).

Definition to_dict (self : rbf_distance_builder_kernel_kernel)
  : result (gmap string pyval) :=
  let input_dict := Stationary_save_to_input_dict (base (db_rbf self)) in
  let input_dict :=
    <["class" := VStr "GPy.kern.RBFDistanceBuilderKernelKernel"]> input_dict in
  RBF.add_inv_l (db_rbf self) input_dict.

End Methods.
End RBFDistanceBuilderKernelKernel.

(** ** The [Cache_this] decorator of [_scaled_dist] *)

Module Caching.

(** Modelled from the spec: the key of an entry of paramz's [Cache_this]
    store, which [rbf.py] imports and does not define.  It is the identity of
    the argument pair [(X, X2)], not their contents; an identity is a
    [nat]. *)
Definition cache_key : Type := nat * option nat.

Definition key_eqb (k1 k2 : cache_key) : bool :=
  (fst k1 =? fst k2)%nat &&
  match snd k1, snd k2 with
  | None, None => true
  | Some a, Some b => (a =? b)%nat
  | _, _ => false
  end.

(** Modelled from the spec: the store of paramz's [Cache_this], the entries in
    the order they were inserted, the oldest first. *)
Definition store : Type := list (cache_key * ndarray).

Fixpoint cache_lookup (k : cache_key) (c : store) : option ndarray :=
  match c with
  | [] => None
  | (k', v) :: c' => if key_eqb k k' then Some v else cache_lookup k c'
  end.

(** Modelled from the spec: insertion in the store of paramz's [Cache_this];
    beyond [limit] entries the oldest inserted ones are evicted. *)
Definition cache_insert (limit : nat) (k : cache_key) (v : ndarray) (c : store)
  : store :=
  let c' := c ++ [(k, v)] in
  skipn (length c' - limit) c'.

(** A kernel object with the store of its decorated method. *)
Record cached (K : Type) : Type := mk_cached {
  kernel : K;
  cache : store
}.

Arguments mk_cached {K} kernel cache.
Arguments kernel {K} c.
Arguments cache {K} c.

Section Decorator.
Context {K : Type}.

(** The decorated method and the array objects in memory, by identity. *)
Variable operation : K -> ndarray -> option ndarray -> result ndarray.
Variable heap : nat -> ndarray.

Definition uncached_call (self : K) (X : nat) (X2 : option nat)
  : result ndarray :=
  operation self (heap X) (option_map heap X2).

(** Modelled from the spec: a call of a method decorated with paramz's
    [Cache_this(limit, ignore_args=())].  A hit returns the stored result and
    does not run the method; a miss runs it and stores its result. *)
Definition Cache_this (limit : nat) (self : cached K) (X : nat)
    (X2 : option nat) : result ndarray * cached K :=
  match cache_lookup (X, X2) (cache self) with
  | Some v => (Ok v, self)
  | None =>
      match uncached_call (kernel self) X X2 with
      | Ok v =>
          (Ok v, mk_cached (kernel self) (cache_insert limit (X, X2) v (cache self)))
      | Raise e => (Raise e, self)
      end
  end.

(** Modelled from the spec: what paramz does to the store when the
    lengthscale of the kernel is given new values, it is reset. *)
Definition lengthscale_changed (set_ls : K -> list R -> K) (self : cached K)
    (v : list R) : cached K :=
  mk_cached (set_ls (kernel self) v) [].

(** What a client does with a kernel: it asks for a scaled distance, or it
    changes the lengthscale. *)
Inductive event : Type :=
| Call (X : nat) (X2 : option nat)
| SetLengthscale (v : list R).

(** The results of the calls of a run, with a decorated method and with the
    method as it is. *)
Fixpoint run (method : cached K -> nat -> option nat -> result ndarray * cached K)
    (set_ls : K -> list R -> K) (self : cached K) (evs : list event)
  : list (result ndarray) :=
  match evs with
  | [] => []
  | Call X X2 :: evs' =>
      let out := method self X X2 in
      fst out :: run method set_ls (snd out) evs'
  | SetLengthscale v :: evs' =>
      run method set_ls (lengthscale_changed set_ls self v) evs'
  end.

Fixpoint run_uncached (set_ls : K -> list R -> K) (self : K)
    (evs : list event) : list (result ndarray) :=
  match evs with
  | [] => []
  | Call X X2 :: evs' =>
      uncached_call self X X2 :: run_uncached set_ls self evs'
  | SetLengthscale v :: evs' => run_uncached set_ls (set_ls self v) evs'
  end.

End Decorator.

(** [self.lengthscale[:] = v] on the two kernels with a decorated method. *)
Definition kk_set_lengthscale (self : rbf_kernel_kernel) (v : list R)
  : rbf_kernel_kernel :=
  let k := kk_rbf self in
  {| kk_rbf := set_base k (set_lengthscale (base k)
                             (set_values (lengthscale (base k)) v));
     dist_metric := dist_metric self;
     dm_kwargs_dict := dm_kwargs_dict self |}.

Definition db_set_lengthscale (self : rbf_distance_builder_kernel_kernel)
    (v : list R) : rbf_distance_builder_kernel_kernel :=
  let k := db_rbf self in
  {| db_rbf := set_base k (set_lengthscale (base k)
                             (set_values (lengthscale (base k)) v));
     distance_builder := distance_builder self;
     n_models := n_models self |}.

End Caching.

(** ** Definitions the statements use *)

(** [a / l] for a scalar [l], the one entry of an array of size one. *)
Definition divide_by_scalar (l : R) (a : ndarray) : ndarray :=
  elementwise1 (fun x => x / l) a.

Definition set_ARD (st : Stationary) (b : bool) : Stationary :=
  {| input_dim := input_dim st; active_dims := active_dims st; name := name st;
     useGPU := useGPU st; ARD := b; variance := variance st;
     variance_gradient := variance_gradient st; lengthscale := lengthscale st |}.

Definition kk_set_ARD (self : rbf_kernel_kernel) (b : bool) : rbf_kernel_kernel :=
  {| kk_rbf := set_base (kk_rbf self) (set_ARD (base (kk_rbf self)) b);
     dist_metric := dist_metric self;
     dm_kwargs_dict := dm_kwargs_dict self |}.

Definition db_set_ARD (self : rbf_distance_builder_kernel_kernel) (b : bool)
  : rbf_distance_builder_kernel_kernel :=
  {| db_rbf := set_base (db_rbf self) (set_ARD (base (db_rbf self)) b);
     distance_builder := distance_builder self;
     n_models := n_models self |}.

(** The value [update_gradients_full] and [update_gradients_diag] leave in the
    gradient of [inv_l]: the gradient of the lengthscale [ls] times
    [lengthscale^3 / -2], entry by entry. *)
Definition projected_gradient (ls : Param) : list R :=
  zip_with (fun g l => g * (l ^ 3 / - 2)) (gradient ls) (values ls).

(** ** A concrete setting, for examples

    Collaborators that do the least: [Stationary.__init__] of a kernel with
    one lengthscale, gradient steps that add one to the lengthscale gradient,
    an empty parent dictionary, and [cdist] as the distance [|x - y|] between
    the entries of two columns. *)
Definition example_Stationary_init (args : init_args) : result Stationary :=
  Ok {| input_dim := arg_input_dim args;
        active_dims := match arg_active_dims args with
                       | None => []
                       | Some d => d
                       end;
        name := arg_name args;
        useGPU := arg_useGPU args;
        ARD := arg_ARD args;
        variance := arg_variance args;
        variance_gradient := 0;
        lengthscale := {| values := match arg_lengthscale args with
                                    | None => [1]
                                    | Some l => l
                                    end;
                          gradient := [0] |} |}.

Definition example_cdist (X X2 : ndarray) (metric : string)
    (kwargs : list (string * R)) : result ndarray :=
  Ok {| shape := [length (data X); length (data X2)];
        data := flat_map (fun x => map (fun y => Rabs (x - y)) (data X2))
                  (data X) |}.

(** A gradient step that adds [1] to every lengthscale gradient. *)
Definition example_step (st : Stationary) : Stationary :=
  set_lengthscale st
    (set_gradient (lengthscale st)
       (map (fun g => g + 1) (gradient (lengthscale st)))).

Definition set_useGPU (st : Stationary) (b : bool) : Stationary :=
  {| input_dim := input_dim st; active_dims := active_dims st; name := name st;
     useGPU := b; ARD := ARD st; variance := variance st;
     variance_gradient := variance_gradient st; lengthscale := lengthscale st |}.

(** A parent [__setstate__] that takes the entries ["useGPU"] and ["psicomp"]
    of the state over into the object. *)
Definition example_setstate (k : rbf) (state : gmap string pyval) : rbf :=
  let st := match state !! "useGPU" with
            | Some (VBool b) => set_useGPU (base k) b
            | _ => base k
            end in
  {| base := st;
     psicomp := match state !! "psicomp" with
                | Some (VPsicomp pc) => pc
                | _ => psicomp k
                end;
     use_invLengthscale := use_invLengthscale k;
     inv_l := inv_l k |}.

Definition example_collaborators : Collaborators :=
  {| Stationary_init := example_Stationary_init;
     Stationary_parameters_changed := fun st => st;
     Stationary_update_gradients_full := fun st _ _ _ => Ok (example_step st);
     Stationary_update_gradients_diag := fun st _ _ => Ok (example_step st);
     Stationary_save_to_input_dict := fun _ => ∅;
     cdist := example_cdist;
     psiDerivativecomputations_var_lengthscale :=
       fun _ _ _ _ _ _ _ => Ok (0, [0]);
     new_gradient := fun n => repeat 0 n;
     super_getstate := fun k =>
       <["useGPU" := VBool (useGPU (base k))]>
         (<["psicomp" := VPsicomp (psicomp k)]>
            (<["name" := VStr (name (base k))]> ∅));
     super_setstate := example_setstate |}.

Definition example_args : init_args :=
  {| arg_input_dim := 1; arg_variance := 2; arg_lengthscale := Some [2];
     arg_ARD := false; arg_active_dims := None; arg_name := "rbf";
     arg_useGPU := false |}.

Definition example_Stationary : Stationary :=
  {| input_dim := 1; active_dims := []; name := "rbf"; useGPU := false;
     ARD := false; variance := 2; variance_gradient := 0;
     lengthscale := {| values := [2]; gradient := [0] |} |}.

Definition example_rbf : rbf :=
  {| base := example_Stationary; psicomp := PSICOMP_RBF;
     use_invLengthscale := false; inv_l := None |}.

Definition example_kernel_kernel : rbf_kernel_kernel :=
  {| kk_rbf := example_rbf; dist_metric := "euclidean"; dm_kwargs_dict := [] |}.

(** A symmetric table of distances between four models. *)
Definition example_table : ndarray :=
  {| shape := [4%nat; 4%nat];
     data := [0; 1; 2; 3;
              1; 0; 4; 5;
              2; 4; 0; 6;
              3; 5; 6; 0] |}.

Definition example_distance_builder_kernel : rbf_distance_builder_kernel_kernel :=
  {| db_rbf := example_rbf; distance_builder := fun _ => example_table;
     n_models := 4 |}.

Definition column (l : list R) : ndarray :=
  {| shape := [length l; 1%nat]; data := l |}.

(** The example kernel in inverse-lengthscale mode. *)
Definition example_inv_rbf : rbf :=
  {| base := example_Stationary; psicomp := PSICOMP_RBF;
     use_invLengthscale := true;
     inv_l := Some {| values := [4]; gradient := [0] |} |}.

(** [table[rows][:, cols]] for index lists within the table: the entries at
    the crossings of the rows and the columns named, row by row. *)
Definition submatrix (table : ndarray) (rows cols : list nat) : ndarray :=
  {| shape := [length rows; length cols];
     data := flat_map (fun i => map (fun j => get2 table i j) cols) rows |}.

(** The indices NumPy accepts on an axis of length [n]. *)
Definition in_numpy_range (n : nat) (i : Z) : Prop :=
  (- Z.of_nat n <= i < Z.of_nat n)%Z.

(** A column of model indices. *)
Definition index_column (l : list nat) : ndarray :=
  {| shape := [length l; 1%nat];
     data := map (fun i => IZR (Z.of_nat i)) l |}.

(** A distance builder whose table has one row and two columns. *)
Definition example_non_square_kernel : rbf_distance_builder_kernel_kernel :=
  {| db_rbf := example_rbf;
     distance_builder := fun _ => {| shape := [1%nat; 2%nat]; data := [0; 1] |};
     n_models := 2 |}.

(** The example kernel on a GPU. *)
Definition example_gpu_rbf : rbf :=
  {| base := set_useGPU example_Stationary true; psicomp := PSICOMP_RBF_GPU;
     use_invLengthscale := false; inv_l := None |}.

(** A second distance builder, all of whose distances are zero. *)
Definition example_zero_table : ndarray :=
  {| shape := [4%nat; 4%nat]; data := repeat 0 16 |}.

Definition example_zero_builder_kernel : rbf_distance_builder_kernel_kernel :=
  {| db_rbf := example_rbf; distance_builder := fun _ => example_zero_table;
     n_models := 4 |}.

Definition example_cityblock_kernel : rbf_kernel_kernel :=
  {| kk_rbf := example_rbf; dist_metric := "cityblock"; dm_kwargs_dict := [] |}.

(** A kernel with two lengthscales in inverse-lengthscale mode. *)
Definition example_ARD_inv_rbf : rbf :=
  {| base := set_ARD (set_lengthscale example_Stationary
                        {| values := [1; 2]; gradient := [0; 0] |}) true;
     psicomp := PSICOMP_RBF;
     use_invLengthscale := true;
     inv_l := Some {| values := [1; 1 / 4]; gradient := [0; 0] |} |}.

(** ** The decorated methods

    [@Cache_this(limit=3, ignore_args=())] on [_scaled_dist], in the two
    classes that define it. *)
Definition kk_scaled_dist_cached {collab : Collaborators} (heap : nat -> ndarray)
    (self : Caching.cached rbf_kernel_kernel) (X : nat) (X2 : option nat)
  : result ndarray * Caching.cached rbf_kernel_kernel :=
  Caching.Cache_this RBFKernelKernel._scaled_dist heap 3 self X X2.

Definition db_scaled_dist_cached (heap : nat -> ndarray)
    (self : Caching.cached rbf_distance_builder_kernel_kernel) (X : nat)
    (X2 : option nat)
  : result ndarray * Caching.cached rbf_distance_builder_kernel_kernel :=
  Caching.Cache_this RBFDistanceBuilderKernelKernel._scaled_dist heap 3
    self X X2.

(** Every stored result is the result the method gives now. *)
Definition cache_valid {K : Type}
    (operation : K -> ndarray -> option ndarray -> result ndarray)
    (heap : nat -> ndarray) (self : Caching.cached K) : Prop :=
  forall k v, In (k, v) (Caching.cache self) ->
    Caching.uncached_call operation heap (Caching.kernel self) (fst k) (snd k)
    = Ok v.

(** The example kernel in inverse-lengthscale mode, with [inv_l] as small as
    the guard. *)
Definition example_tiny_inv_rbf : rbf :=
  {| base := example_Stationary; psicomp := PSICOMP_RBF;
     use_invLengthscale := true;
     inv_l := Some {| values := [1e-200]; gradient := [0] |} |}.

(** ** class RBF, the spectrum

    [spectrum] for a Python float [omega]; the result has one entry for every
    lengthscale. *)
Module RBF_spectral.

Definition spectrum (self : rbf) (omega : R) : result (list R) :=
  if (input_dim (base self) =? 1)%Z then
    Ok (map (fun l => variance (base self) * sqrt (2 * PI) * l
                      * exp (- l * 2 * omega ^ 2 / 2))
            (values (lengthscale (base self))))
  else Raise AssertionError.

End RBF_spectral.

(** ** Definitions the further statements use *)

(** The row or column an index within NumPy's range names. *)
Definition wrap_index (n : nat) (i : Z) : nat :=
  Z.to_nat (if (i <? 0)%Z then i + Z.of_nat n else i).

(** The integer [z] is [x] with its fractional part dropped. *)
Definition truncates_to (x : R) (z : Z) : Prop :=
  (0 <= x /\ IZR z <= x < IZR z + 1) \/ (x < 0 /\ IZR z - 1 < x <= IZR z).

(** A column of integers. *)
Definition integer_column (l : list Z) : ndarray :=
  {| shape := [length l; 1%nat]; data := map IZR l |}.

(** * Theorems *)

(** ** The radial functions *)

Section Radial.
Context {collab : Collaborators}.

Lemma K_of_r_derivable (self : rbf) (r : R) :
  derivable_pt_lim (RBF.K_of_r self) r (RBF.dK_dr self r).
Proof.
  unfold RBF.dK_dr, RBF.K_of_r.
  set (v := variance (base self)).
  assert (Hin : derivable_pt_lim (fun x => - 0.5 * x ^ 2) r (- r)).
  { replace (- r) with (0 * r ^ 2 + - 0.5 * (INR 2 * r ^ Nat.pred 2))
      by (simpl; lra).
    apply (derivable_pt_lim_mult (fun _ => - 0.5) (fun x => x ^ 2)).
    - apply derivable_pt_lim_const.
    - apply derivable_pt_lim_pow. }
  assert (Hexp : derivable_pt_lim (fun x => exp (- 0.5 * x ^ 2)) r
                   (exp (- 0.5 * r ^ 2) * - r)).
  { apply (derivable_pt_lim_comp (fun x => - 0.5 * x ^ 2) exp).
    - exact Hin.
    - apply derivable_pt_lim_exp. }
  replace (- r * (v * exp (- 0.5 * r ^ 2)))
    with (0 * exp (- 0.5 * r ^ 2) + v * (exp (- 0.5 * r ^ 2) * - r)) by lra.
  apply (derivable_pt_lim_mult (fun _ => v) (fun x => exp (- 0.5 * x ^ 2))).
  - apply derivable_pt_lim_const.
  - exact Hexp.
Qed.

Lemma dK_dr_derivable (self : rbf) (r : R) :
  derivable_pt_lim (RBF.dK_dr self) r (RBF.dK2_drdr self r).
Proof.
  unfold RBF.dK2_drdr.
  replace ((r ^ 2 - 1) * RBF.K_of_r self r)
    with (- 1 * RBF.K_of_r self r + - r * RBF.dK_dr self r)
    by (unfold RBF.dK_dr; ring).
  apply (derivable_pt_lim_mult (fun x => - x) (RBF.K_of_r self)).
  - replace (-1) with (Ropp 1) by lra.
    apply (derivable_pt_lim_opp id r 1), derivable_pt_lim_id.
  - apply K_of_r_derivable.
Qed.

Lemma dK2_drdr_continuous (self : rbf) (r : R) :
  continuity_pt (RBF.dK2_drdr self) r.
Proof.
  apply (continuity_pt_mult (fun x => x ^ 2 - 1) (RBF.K_of_r self)).
  - apply derivable_continuous_pt.
    exists (INR 2 * r ^ Nat.pred 2 - 0).
    apply (derivable_pt_lim_minus (fun x => x ^ 2) (fun _ => 1)).
    + apply derivable_pt_lim_pow.
    + apply derivable_pt_lim_const.
  - apply derivable_continuous_pt.
    exists (RBF.dK_dr self r). apply K_of_r_derivable.
Qed.

Lemma elementwise1_nth (f : R -> R) (a : ndarray) (i : nat) :
  (i < length (data a))%nat ->
  nth i (data (elementwise1 f a)) 0 = f (nth i (data a) 0).
Proof.
  intros Hi. unfold elementwise1; simpl.
  rewrite (nth_indep _ 0 (f 0)) by (rewrite length_map; exact Hi).
  apply map_nth.
Qed.

(** C1.  [K_of_r(r)] is [variance * exp(-0.5 * r^2)], [dK_dr(r)] is
    [-r * K_of_r(r)] and [dK2_drdr(r)] is [(r^2 - 1) * K_of_r(r)], on a scalar
    and, entry by entry, on an array.  The right-hand sides mention [r] and
    the variance only, and the methods return a value and no kernel: they are
    pure functions of the two.  [dK_dr] is the derivative of [K_of_r] and
    [dK2_drdr] the derivative of [dK_dr]. *)
Theorem radial_functions_spec (self : rbf) :
  (forall r : R,
     RBF.K_of_r self r = variance (base self) * exp (- 0.5 * r ^ 2) /\
     RBF.dK_dr self r = - r * RBF.K_of_r self r /\
     RBF.dK2_drdr self r = (r ^ 2 - 1) * RBF.K_of_r self r /\
     derivable_pt_lim (RBF.K_of_r self) r (RBF.dK_dr self r) /\
     derivable_pt_lim (RBF.dK_dr self) r (RBF.dK2_drdr self r)) /\
  (forall r : ndarray,
     RBF.K_of_r_array self r =
       elementwise1 (fun x => variance (base self) * exp (- 0.5 * x ^ 2)) r /\
     RBF.dK_dr_array self r =
       elementwise1
         (fun x => - x * (variance (base self) * exp (- 0.5 * x ^ 2))) r /\
     RBF.dK2_drdr_array self r =
       elementwise1
         (fun x => (x ^ 2 - 1) * (variance (base self) * exp (- 0.5 * x ^ 2))) r) /\
  (forall (r : ndarray) (i : nat),
     (i < length (data r))%nat ->
     nth i (data (RBF.K_of_r_array self r)) 0 =
       variance (base self) * exp (- 0.5 * nth i (data r) 0 ^ 2) /\
     nth i (data (RBF.dK_dr_array self r)) 0 =
       - nth i (data r) 0 * nth i (data (RBF.K_of_r_array self r)) 0 /\
     nth i (data (RBF.dK2_drdr_array self r)) 0 =
       (nth i (data r) 0 ^ 2 - 1) * nth i (data (RBF.K_of_r_array self r)) 0).
Proof.
  split; [| split].
  - intros r. repeat split.
    + apply K_of_r_derivable.
    + apply dK_dr_derivable.
  - intros r. repeat split.
  - intros r i Hi. unfold RBF.K_of_r_array, RBF.dK_dr_array, RBF.dK2_drdr_array.
    rewrite !elementwise1_nth by exact Hi. repeat split.
Qed.

(** C8.  [dK2_drdr_diag()] is [-variance]; it is [dK2_drdr(0)], and
    [dK2_drdr] is continuous at [0], so it is also the limit of
    [(r^2 - 1) * K(r)] as [r] tends to [0]. *)
Theorem dK2_drdr_diag_spec (self : rbf) :
  RBF.dK2_drdr_diag self = - variance (base self) /\
  RBF.dK2_drdr self 0 = RBF.dK2_drdr_diag self /\
  continuity_pt (RBF.dK2_drdr self) 0.
Proof.
  split; [reflexivity |]. split.
  - unfold RBF.dK2_drdr, RBF.dK2_drdr_diag, RBF.K_of_r.
    replace (- 0.5 * 0 ^ 2) with 0 by (simpl; lra).
    rewrite exp_0. simpl. lra.
  - apply dK2_drdr_continuous.
Qed.

End Radial.

(** ** The scaled distance *)

Section ScaledDistance.
Context {collab : Collaborators}.

Lemma div_broadcast_scalar (r : ndarray) (l : R) :
  div_broadcast r [l] = Ok (divide_by_scalar l r).
Proof. reflexivity. Qed.

Lemma bind_div_scalar (m : result ndarray) (l : R) :
  bind m (fun r => div_broadcast r [l]) = rmap (divide_by_scalar l) m.
Proof. destruct m; reflexivity. Qed.

(** In both classes the two branches of [_scaled_dist] are the same
    expression, whatever the lengthscale array is. *)
Lemma kk_scaled_dist_unfold (self : rbf_kernel_kernel) X X2 :
  RBFKernelKernel._scaled_dist self X X2 =
  bind (RBFKernelKernel._unscaled_dist self X X2)
       (fun r => div_broadcast r (values (lengthscale (base (kk_rbf self))))).
Proof.
  unfold RBFKernelKernel._scaled_dist.
  destruct (ARD (base (kk_rbf self))); reflexivity.
Qed.

Lemma db_scaled_dist_unfold (self : rbf_distance_builder_kernel_kernel) X X2 :
  RBFDistanceBuilderKernelKernel._scaled_dist self X X2 =
  bind (RBFDistanceBuilderKernelKernel._unscaled_dist self X X2)
       (fun r => div_broadcast r (values (lengthscale (base (db_rbf self))))).
Proof.
  unfold RBFDistanceBuilderKernelKernel._scaled_dist.
  destruct (ARD (base (db_rbf self))); reflexivity.
Qed.

(** With more than one lengthscale the same expression broadcasts over the
    last axis of the distances, or fails: the statement below is about a
    lengthscale of one entry, the case the comment in [_scaled_dist] has in
    mind. *)
Remark div_broadcast_two_lengthscales (d : list R) (l1 l2 : R) :
  div_broadcast {| shape := [3%nat; 3%nat]; data := d |} [l1; l2]
  = Raise ValueError.
Proof. reflexivity. Qed.


End ScaledDistance.


(** ** The inverse lengthscale *)

Section InverseLengthscale.
Context {collab : Collaborators}.

Lemma assign_slice_same_length (dst src : list R) :
  length src = length dst -> assign_slice dst src = Ok src.
Proof.
  intros H. unfold assign_slice.
  rewrite (proj2 (Nat.eqb_eq _ _) H). reflexivity.
Qed.

(** The guard [1e-200] moves the lengthscale below [1/sqrt(v)] by a relative
    error of at most [1e-200 / (2 v)]. *)
Lemma guarded_inverse_sqrt_bounds (v e : R) :
  0 < v -> 0 < e ->
  0 < 1 / sqrt (v + e) < 1 / sqrt v /\
  1 / sqrt v - 1 / sqrt (v + e) <= e / (2 * v) * (1 / sqrt v).
Proof.
  intros Hv He.
  set (a := sqrt v). set (b := sqrt (v + e)).
  assert (Ha : 0 < a) by (apply sqrt_lt_R0; lra).
  assert (Hb : 0 < b) by (apply sqrt_lt_R0; lra).
  assert (Haa : a * a = v) by (apply sqrt_sqrt; lra).
  assert (Hbb : b * b = v + e) by (apply sqrt_sqrt; lra).
  assert (Hab : a < b) by (apply sqrt_lt_1; lra).
  assert (Hia : 0 < / a) by (apply Rinv_0_lt_compat; exact Ha).
  assert (Hib : 0 < / b) by (apply Rinv_0_lt_compat; exact Hb).
  assert (Hlt : / b < / a) by (apply Rinv_lt_contravar; nra).
  split.
  - unfold Rdiv. rewrite !Rmult_1_l. lra.
  - clearbody a b. subst v.
    assert (He' : e = b * b - a * a) by lra. subst e.
    assert (Hdiff : (b * b - a * a) / (2 * (a * a)) * (1 / a) - (1 / a - 1 / b)
                    = (b - a) * ((b + a) * b - 2 * (a * a))
                      * / (2 * (a * a) * a * b)) by (field; lra).
    assert (Hpos : 0 <= (b - a) * ((b + a) * b - 2 * (a * a))
                        * / (2 * (a * a) * a * b)).
    { apply Rmult_le_pos.
      - apply Rmult_le_pos; nra.
      - left. apply Rinv_0_lt_compat.
        repeat apply Rmult_lt_0_compat; lra. }
    lra.
Qed.

(** C3, as the code has it.  On a kernel in inverse-lengthscale mode whose
    [inv_l] has the shape of the lengthscale, and with a parent
    [parameters_changed] that leaves the lengthscale alone,
    [parameters_changed] sets every lengthscale to [1/sqrt(v + 1e-200)] for the
    entry [v] of [inv_l]; for [v > 0] this is below [1/sqrt(v)] by a relative
    error of at most [1e-200 / (2 v)], which is small when [v] is large
    against the guard; and [__init__] with [inv_l=True] sets [inv_l] to
    [1/lengthscale^2]. *)
Theorem inv_l_lengthscale_sync (self : rbf) (p : Param) :
  (forall st, values (lengthscale (Stationary_parameters_changed st)) =
              values (lengthscale st)) ->
  use_invLengthscale self = true ->
  inv_l self = Some p ->
  length (values p) = length (values (lengthscale (base self))) ->
  (exists self',
     RBF.parameters_changed self = Ok self' /\
     values (lengthscale (base self')) =
       map (fun v => 1 / sqrt (v + 1e-200)) (values p) /\
     inv_l self' = Some p) /\
  (forall v, 0 < v ->
     0 < 1 / sqrt (v + 1e-200) < 1 / sqrt v /\
     1 / sqrt v - 1 / sqrt (v + 1e-200) <= 1e-200 / (2 * v) * (1 / sqrt v)) /\
  (forall args k,
     RBF.__init__ args true = Ok k ->
     exists st q,
       Stationary_init args = Ok st /\ base k = st /\
       use_invLengthscale k = true /\ inv_l k = Some q /\
       values q = map (fun l => 1 / l ^ 2) (values (lengthscale st))).
Proof.
  intros Hparent Huse Hinv Hlen. split; [| split].
  - unfold RBF.parameters_changed, RBF.get_inv_l.
    rewrite Huse, Hinv. simpl.
    rewrite assign_slice_same_length by (rewrite length_map; exact Hlen).
    simpl. eexists. split; [reflexivity |]. simpl.
    rewrite Hparent. simpl. split; [reflexivity | exact Hinv].
  - intros v Hv. apply guarded_inverse_sqrt_bounds; [exact Hv | lra].
  - intros args k Hk. unfold RBF.__init__ in Hk.
    destruct (Stationary_init args) as [st | e]; simpl in Hk; [| discriminate].
    injection Hk as <-. exists st. eexists. simpl.
    repeat split; reflexivity.
Qed.

End InverseLengthscale.

Lemma inv_l_lengthscale_sync_witness :
  exists self',
    RBF.parameters_changed (collab := example_collaborators) example_inv_rbf
      = Ok self' /\
    values (lengthscale (base self')) = [1 / sqrt (4 + 1e-200)].
Proof.
  destruct (inv_l_lengthscale_sync (collab := example_collaborators)
              example_inv_rbf {| values := [4]; gradient := [0] |}
              (fun st => eq_refl) eq_refl eq_refl eq_refl)
    as [[self' [H1 [H2 _]]] _].
  exists self'. split; [exact H1 | exact H2].
Defined.

(** At [inv_l = 1e-200] the guard is as large as the value: the lengthscale
    is [1/sqrt(2)] of [1/sqrt(inv_l)], more than 29 percent below it. *)
Lemma inv_l_at_guard_not_close :
  RBF.parameters_changed (collab := example_collaborators) example_tiny_inv_rbf
  = Ok (set_base example_tiny_inv_rbf
          (set_lengthscale example_Stationary
             {| values := [1 / sqrt (1e-200 + 1e-200)]; gradient := [0] |})) /\
  1 / sqrt (1e-200 + 1e-200) < 0.71 * (1 / sqrt 1e-200).
Proof.
  split; [reflexivity |].
  set (v := 1e-200).
  assert (Hv : 0 < v) by (unfold v; lra).
  set (a := sqrt v). set (b := sqrt (v + v)).
  assert (Ha : 0 < a) by (apply sqrt_lt_R0; lra).
  assert (Hb : 0 < b) by (apply sqrt_lt_R0; lra).
  assert (Haa : a * a = v) by (apply sqrt_sqrt; lra).
  assert (Hbb : b * b = v + v) by (apply sqrt_sqrt; lra).
  clearbody a b v.
  assert (Hab : a < 0.71 * b) by nra.
  apply (Rmult_lt_reg_r (a * b)); [nra |].
  replace (1 / b * (a * b)) with a by (field; lra).
  replace (0.71 * (1 / a) * (a * b)) with (0.71 * b) by (field; lra).
  exact Hab.
Qed.

(** ** The gradient of the inverse lengthscale *)

Section Gradients.
Context {collab : Collaborators}.

Lemma zip_with_map_r (f : R -> R) (a b : list R) :
  zip_with Rmult a (map f b) = zip_with (fun x y => x * f y) a b.
Proof.
  revert b. induction a as [| x a IH]; intros [| y b]; simpl; try reflexivity.
  f_equal. apply IH.
Qed.

Lemma mul_broadcast_same_length (a b : list R) :
  length a = length b -> mul_broadcast a b = Ok (zip_with Rmult a b).
Proof.
  intros H. unfold mul_broadcast.
  rewrite (proj2 (Nat.eqb_eq _ _) H). reflexivity.
Qed.

Lemma length_zip_with_same (f : R -> R -> R) (a b : list R) :
  length a = length b -> length (zip_with f a b) = length a.
Proof.
  revert b. induction a as [| x a IH]; intros [| y b] H; simpl in *;
    try reflexivity; try discriminate.
  f_equal. apply IH. lia.
Qed.

Lemma nth_zip_with (f : R -> R -> R) (a b : list R) (i : nat) :
  (i < length a)%nat -> (i < length b)%nat ->
  nth i (zip_with f a b) 0 = f (nth i a 0) (nth i b 0).
Proof.
  revert b i. induction a as [| x a IH]; intros [| y b] [| i] Ha Hb;
    simpl in *; try lia; try reflexivity.
  apply IH; lia.
Qed.

(** What the last statement of the gradient methods does in
    inverse-lengthscale mode, after the step of the parent has left [st]. *)
Lemma project_inv_l_gradient_spec (self : rbf) (p : Param) (st : Stationary) :
  use_invLengthscale self = true ->
  inv_l self = Some p ->
  length (gradient (lengthscale st)) = length (values (lengthscale st)) ->
  length (gradient p) = length (values (lengthscale st)) ->
  RBF.project_inv_l_gradient (set_base self st)
    (gradient (lengthscale (base (set_base self st)))) =
  Ok (set_inv_l (set_base self st)
        (set_gradient p (projected_gradient (lengthscale st)))).
Proof.
  intros Huse Hinv Hg Hp. unfold RBF.project_inv_l_gradient, RBF.get_inv_l.
  simpl. rewrite Huse, Hinv.
  rewrite mul_broadcast_same_length by (rewrite length_map; exact Hg).
  simpl. rewrite zip_with_map_r.
  rewrite assign_slice_same_length
    by (rewrite length_zip_with_same by exact Hg; congruence).
  reflexivity.
Qed.

(** C4.  In inverse-lengthscale mode, when the step of the parent returns the
    state [st], [update_gradients_full] and [update_gradients_diag] return the
    kernel with that state and with the gradient of [inv_l] replaced by the
    lengthscale gradient of [st] times [lengthscale^3 / -2], entry by entry.
    The former contents of the slot, [gradient p], do not occur in the
    result. *)
Theorem inv_l_gradient_projection (self : rbf) (p : Param)
    (dL_dK X : ndarray) (X2 : option ndarray) (st : Stationary) :
  use_invLengthscale self = true ->
  inv_l self = Some p ->
  length (gradient (lengthscale st)) = length (values (lengthscale st)) ->
  length (gradient p) = length (values (lengthscale st)) ->
  (Stationary_update_gradients_full (base self) dL_dK X X2 = Ok st ->
   RBF.update_gradients_full self dL_dK X X2 =
   Ok (set_inv_l (set_base self st)
         (set_gradient p (projected_gradient (lengthscale st))))) /\
  (Stationary_update_gradients_diag (base self) dL_dK X = Ok st ->
   RBF.update_gradients_diag self dL_dK X =
   Ok (set_inv_l (set_base self st)
         (set_gradient p (projected_gradient (lengthscale st))))) /\
  (forall i, (i < length (values (lengthscale st)))%nat ->
     nth i (projected_gradient (lengthscale st)) 0 =
     nth i (gradient (lengthscale st)) 0 *
     (nth i (values (lengthscale st)) 0 ^ 3 / - 2)).
Proof.
  intros Huse Hinv Hg Hp. split; [| split].
  - intros Hst. unfold RBF.update_gradients_full. rewrite Hst. simpl bind.
    apply project_inv_l_gradient_spec; assumption.
  - intros Hst. unfold RBF.update_gradients_diag. rewrite Hst. simpl bind.
    apply project_inv_l_gradient_spec; assumption.
  - intros i Hi. unfold projected_gradient.
    apply (nth_zip_with (fun g l => g * (l ^ 3 / - 2))); lia.
Qed.

(** Two kernels that differ in the former contents of the slot only end in
    the same state. *)
Lemma inv_l_gradient_overwritten (self : rbf) (p : Param) (g0 : list R)
    (dL_dK X : ndarray) (X2 : option ndarray) (st : Stationary) :
  use_invLengthscale self = true ->
  inv_l self = Some p ->
  length (gradient (lengthscale st)) = length (values (lengthscale st)) ->
  length (gradient p) = length (values (lengthscale st)) ->
  length g0 = length (gradient p) ->
  Stationary_update_gradients_full (base self) dL_dK X X2 = Ok st ->
  RBF.update_gradients_full (set_inv_l self (set_gradient p g0)) dL_dK X X2 =
  RBF.update_gradients_full self dL_dK X X2.
Proof.
  intros Huse Hinv Hg Hp Hg0 Hst.
  unfold RBF.update_gradients_full.
  change (base (set_inv_l self (set_gradient p g0))) with (base self).
  rewrite Hst. simpl bind.
  etransitivity.
  - apply (project_inv_l_gradient_spec (set_inv_l self (set_gradient p g0))
             (set_gradient p g0) st);
      [exact Huse | reflexivity | exact Hg | simpl; congruence].
  - symmetry. etransitivity.
    + apply (project_inv_l_gradient_spec self p st); assumption.
    + reflexivity.
Qed.

End Gradients.

Lemma inv_l_gradient_projection_witness :
  RBF.update_gradients_full (collab := example_collaborators) example_inv_rbf
    (scalar 0) (column [0; 1]) None =
  Ok (set_inv_l (set_base example_inv_rbf (example_step example_Stationary))
        (set_gradient {| values := [4]; gradient := [0] |}
           [(0 + 1) * (2 ^ 3 / - 2)])).
Proof.
  exact (proj1 (inv_l_gradient_projection (collab := example_collaborators)
                  example_inv_rbf {| values := [4]; gradient := [0] |}
                  (scalar 0) (column [0; 1]) None
                  (example_step example_Stationary)
                  eq_refl eq_refl eq_refl eq_refl) eq_refl).
Defined.

(** ** The unscaled distance of the distance-builder kernel *)

Section Lookup.
Context {collab : Collaborators}.

Lemma trunc_IZR (z : Z) : trunc (IZR z) = z.
Proof.
  unfold trunc. destruct (Rle_dec 0 (IZR z)).
  - apply ZfloorZ.
  - apply Zceil_eq. lra.
Qed.

Lemma astype_int_index (l : list nat) :
  astype_int (map (fun i => IZR (Z.of_nat i)) l) = map Z.of_nat l.
Proof.
  unfold astype_int. rewrite map_map.
  apply map_ext. intros i. apply trunc_IZR.
Qed.

Lemma normalize_index_nat (n i : nat) :
  (i < n)%nat -> normalize_index n (Z.of_nat i) = Ok i.
Proof.
  intros H. unfold normalize_index.
  replace ((0 <=? Z.of_nat i)%Z && (Z.of_nat i <? Z.of_nat n)%Z) with true.
  - rewrite Nat2Z.id. reflexivity.
  - symmetry. apply andb_true_intro. split.
    + apply Z.leb_le. lia.
    + apply Z.ltb_lt. lia.
Qed.

Lemma normalize_index_cases (n : nat) (i : Z) :
  (in_numpy_range n i /\ exists k, normalize_index n i = Ok k /\ (k < n)%nat) \/
  (~ in_numpy_range n i /\ normalize_index n i = Raise IndexError).
Proof.
  unfold normalize_index, in_numpy_range.
  destruct (0 <=? i)%Z eqn:H0; destruct (i <? Z.of_nat n)%Z eqn:H1; simpl;
    try apply Z.leb_le in H0; try apply Z.leb_gt in H0;
    try apply Z.ltb_lt in H1; try apply Z.ltb_ge in H1.
  - left. split; [lia |]. eexists. split; [reflexivity | lia].
  - destruct (- Z.of_nat n <=? i)%Z eqn:H2; destruct (i <? 0)%Z eqn:H3; simpl;
      try apply Z.ltb_lt in H3; try lia.
    all: right; split; [lia | reflexivity].
  - destruct (- Z.of_nat n <=? i)%Z eqn:H2; destruct (i <? 0)%Z eqn:H3; simpl;
      try apply Z.leb_le in H2; try apply Z.leb_gt in H2;
      try apply Z.ltb_lt in H3; try apply Z.ltb_ge in H3; try lia.
    + left. split; [lia |]. eexists. split; [reflexivity | lia].
    + right. split; [lia | reflexivity].
  - lia.
Qed.

Lemma mapM_normalize_nat (n : nat) (l : list nat) :
  Forall (fun i => (i < n)%nat) l ->
  mapM (normalize_index n) (map Z.of_nat l) = Ok l.
Proof.
  induction 1 as [| i l Hi _ IH]; simpl; [reflexivity |].
  rewrite normalize_index_nat by exact Hi. simpl. rewrite IH. reflexivity.
Qed.

Lemma mapM_normalize_ok (n : nat) (l : list Z) :
  Forall (in_numpy_range n) l ->
  exists ks, mapM (normalize_index n) l = Ok ks /\ length ks = length l.
Proof.
  induction 1 as [| i l Hi _ [ks [IH Hlen]]]; simpl.
  - exists []. split; reflexivity.
  - destruct (normalize_index_cases n i) as [[_ [k [Hk _]]] | [Hn _]];
      [| contradiction].
    rewrite Hk. simpl. rewrite IH. simpl. exists (k :: ks).
    split; [reflexivity | simpl; congruence].
Qed.

Lemma mapM_normalize_raises (n : nat) (l : list Z) :
  Exists (fun i => ~ in_numpy_range n i) l ->
  mapM (normalize_index n) l = Raise IndexError.
Proof.
  induction l as [| i l IH]; intros H.
  - inversion H.
  - simpl. destruct (normalize_index_cases n i) as [[Hin [k [Hk _]]] | [_ Hr]].
    + rewrite Hk. simpl. rewrite IH; [reflexivity |].
      inversion H; subst; [contradiction | assumption].
    + rewrite Hr. reflexivity.
Qed.

Lemma mapM_normalize_total (n : nat) (l : list Z) :
  (exists ks, mapM (normalize_index n) l = Ok ks) \/
  mapM (normalize_index n) l = Raise IndexError.
Proof.
  induction l as [| i l IH]; simpl.
  - left. eexists. reflexivity.
  - destruct (normalize_index_cases n i) as [[_ [k [Hk _]]] | [_ Hr]].
    + rewrite Hk. simpl. destruct IH as [[ks ->] | ->]; simpl.
      * left. eexists. reflexivity.
      * right. reflexivity.
    + rewrite Hr. right. reflexivity.
Qed.

(** Entry [a * c + j] of a concatenation of blocks of length [c] is entry [j]
    of block [a]. *)
Lemma nth_flat_map_uniform {A : Type} (f : A -> list R) (l : list A) (c : nat)
    (a j : nat) (d : A) :
  (forall x, In x l -> length (f x) = c) ->
  (a < length l)%nat -> (j < c)%nat ->
  nth (a * c + j) (flat_map f l) 0 = nth j (f (nth a l d)) 0.
Proof.
  revert a. induction l as [| x l IH]; intros a Hlen Ha Hj; simpl in Ha.
  - lia.
  - simpl flat_map. destruct a as [| a].
    + simpl. apply app_nth1. rewrite Hlen by (left; reflexivity). exact Hj.
    + rewrite app_nth2 by (rewrite Hlen by (left; reflexivity); simpl; lia).
      rewrite Hlen by (left; reflexivity).
      replace (S a * c + j - c)%nat with (a * c + j)%nat by (simpl; lia).
      simpl nth. apply IH; [| lia | exact Hj].
      intros y Hy. apply Hlen. right. exact Hy.
Qed.

Lemma length_row (l : list R) (n i : nat) :
  length l = (n * n)%nat -> (i < n)%nat ->
  length (firstn n (skipn (i * n) l)) = n.
Proof.
  intros Hl Hi. rewrite List.length_firstn, List.length_skipn, Hl.
  apply Nat.min_l. nia.
Qed.

Lemma nth_row (l : list R) (n i j : nat) :
  (j < n)%nat ->
  nth j (firstn n (skipn (i * n) l)) 0 = nth (i * n + j) l 0.
Proof.
  intros Hj. rewrite List.nth_firstn.
  rewrite (proj2 (Nat.ltb_lt _ _) Hj). apply List.nth_skipn.
Qed.

Lemma flat_map_seq_nth {A : Type} (g : A -> list R) (l : list A) (d : A) :
  flat_map (fun a => g (nth a l d)) (seq 0 (length l)) = flat_map g l.
Proof.
  induction l as [| x l IH]; [reflexivity |].
  simpl. f_equal. rewrite <- IH, <- seq_shift.
  rewrite !flat_map_concat_map, map_map. reflexivity.
Qed.

Lemma flat_map_ext_in {A : Type} (f g : A -> list R) (l : list A) :
  (forall a, In a l -> f a = g a) -> flat_map f l = flat_map g l.
Proof.
  induction l as [| x l IH]; intros H; [reflexivity |].
  simpl. rewrite H by (left; reflexivity). f_equal.
  apply IH. intros a Ha. apply H. right. exact Ha.
Qed.

(** The two selections of [_unscaled_dist] on an [n] by [n] table with
    indices within it give the submatrix. *)
Lemma take_rows_cols_submatrix (table : ndarray) (n : nat) (rows cols : list nat) :
  shape table = [n; n] -> wf_ndarray table ->
  Forall (fun i => (i < n)%nat) rows -> Forall (fun j => (j < n)%nat) cols ->
  bind (take_rows table (map Z.of_nat rows))
       (fun r => take_cols r (map Z.of_nat cols)) =
  Ok (submatrix table rows cols).
Proof.
  intros Hs Hwf Hrows Hcols.
  unfold wf_ndarray in Hwf. rewrite Hs in Hwf. simpl in Hwf.
  rewrite Nat.mul_1_r in Hwf.
  unfold take_rows, nrows. rewrite Hs. simpl nth. simpl tl. simpl size_of.
  rewrite Nat.mul_1_r.
  rewrite mapM_normalize_nat by exact Hrows. simpl bind.
  unfold take_cols, ncols, nrows. simpl nth.
  rewrite mapM_normalize_nat by exact Hcols. simpl bind.
  unfold submatrix, get2, ncols. rewrite Hs. simpl nth.
  rewrite !length_map. f_equal. f_equal.
  rewrite <- (flat_map_seq_nth
                (fun i => map (fun j => nth (i * n + j) (data table) 0) cols)
                rows 0%nat).
  apply flat_map_ext_in. intros a Ha. apply List.in_seq in Ha.
  apply List.map_ext_in. intros j Hj.
  assert (Hjn : (j < n)%nat)
    by (exact (proj1 (List.Forall_forall _ _) Hcols j Hj)).
  rewrite (nth_flat_map_uniform _ rows n a j 0%nat); [| | lia | exact Hjn].
  - apply nth_row. exact Hjn.
  - intros i Hi. apply length_row; [exact Hwf |].
    exact (proj1 (List.Forall_forall _ _) Hrows i Hi).
Qed.

Lemma submatrix_get2 (table : ndarray) (rows cols : list nat) (a b : nat) :
  (a < length rows)%nat -> (b < length cols)%nat ->
  get2 (submatrix table rows cols) a b =
  get2 table (nth a rows 0%nat) (nth b cols 0%nat).
Proof.
  intros Ha Hb. unfold get2 at 1. unfold ncols. simpl.
  rewrite (nth_flat_map_uniform _ rows (length cols) a b 0%nat);
    [| intros; apply length_map | exact Ha | exact Hb].
  rewrite (nth_indep _ 0 (get2 table (nth a rows 0%nat) 0%nat))
    by (rewrite length_map; exact Hb).
  apply (map_nth (fun j => get2 table (nth a rows 0%nat) j)).
Qed.

Lemma submatrix_wf (table : ndarray) (rows cols : list nat) :
  wf_ndarray (submatrix table rows cols).
Proof.
  unfold wf_ndarray, submatrix. simpl.
  rewrite (List.flat_map_constant_length (c := length cols))
    by (intros; apply length_map).
  lia.
Qed.

Lemma db_unscaled_dist_submatrix (self : rbf_distance_builder_kernel_kernel)
    (n : nat) (X X2 : ndarray) (rows cols : list nat) :
  shape (distance_builder self (n_models self)) = [n; n] ->
  wf_ndarray (distance_builder self (n_models self)) ->
  flatten X = map (fun i => IZR (Z.of_nat i)) rows ->
  flatten X2 = map (fun j => IZR (Z.of_nat j)) cols ->
  Forall (fun i => (i < n)%nat) rows ->
  Forall (fun j => (j < n)%nat) cols ->
  RBFDistanceBuilderKernelKernel._unscaled_dist self X (Some X2) =
  Ok (submatrix (distance_builder self (n_models self)) rows cols).
Proof.
  intros Hs Hwf HX HX2 Hrows Hcols.
  unfold RBFDistanceBuilderKernelKernel._unscaled_dist, ndim, nrows, ncols.
  rewrite Hs. simpl. rewrite Nat.eqb_refl.
  rewrite HX, HX2, !astype_int_index.
  apply (take_rows_cols_submatrix _ n); assumption.
Qed.


End Lookup.


(** ** The errors of the distance-builder kernel *)

Section Errors.
Context {collab : Collaborators}.

Lemma take_rows_shape (r r' : ndarray) (idx : list Z) :
  take_rows r idx = Ok r' -> shape r' = length idx :: tl (shape r).
Proof.
  unfold take_rows. destruct (mapM _ idx); simpl; [| discriminate].
  intros H. injection H as <-. reflexivity.
Qed.

Lemma take_rows_total (r : ndarray) (idx : list Z) :
  (exists r', take_rows r idx = Ok r') \/ take_rows r idx = Raise IndexError.
Proof.
  unfold take_rows.
  destruct (mapM_normalize_total (nrows r) idx) as [[ks ->] | ->]; simpl.
  - left. eexists. reflexivity.
  - right. reflexivity.
Qed.

Lemma db_unscaled_dist_square (self : rbf_distance_builder_kernel_kernel)
    (X : ndarray) (X2 : option ndarray) (n : nat) :
  shape (distance_builder self (n_models self)) = [n; n] ->
  RBFDistanceBuilderKernelKernel._unscaled_dist self X X2 =
  bind (take_rows (distance_builder self (n_models self))
          (astype_int (flatten X)))
       (fun r => take_cols r
                   (astype_int
                      (flatten match X2 with None => X | Some X2 => X2 end))).
Proof.
  intros Hs.
  unfold RBFDistanceBuilderKernelKernel._unscaled_dist, ndim, nrows, ncols.
  rewrite Hs. simpl. rewrite Nat.eqb_refl. reflexivity.
Qed.



End Errors.


(** ** Pickling *)

Section Pickling.
Context {collab : Collaborators}.

(** C10.  For a kernel with [useGPU] set, the state of [__getstate__] has
    ["useGPU"] at [False] and ["psicomp"] at the CPU implementation
    [PSICOMP_RBF], and every other entry is the entry of the state of the
    parent; for a kernel without, it is the state of the parent.  With a
    parent [__setstate__] that takes these two entries over, unpickling the
    state of a GPU kernel gives a CPU kernel. *)
Theorem getstate_spec (self : rbf) :
  (useGPU (base self) = true ->
   RBF.__getstate__ self !! "useGPU" = Some (VBool false) /\
   RBF.__getstate__ self !! "psicomp" = Some (VPsicomp PSICOMP_RBF) /\
   (forall key : string,
      key <> "useGPU" -> key <> "psicomp" ->
      RBF.__getstate__ self !! key = super_getstate self !! key) /\
   ((forall k (state : gmap string pyval) b pc,
       state !! "useGPU" = Some (VBool b) ->
       state !! "psicomp" = Some (VPsicomp pc) ->
       useGPU (base (super_setstate k state)) = b /\
       psicomp (super_setstate k state) = pc) ->
    forall k,
      useGPU (base (RBF.__setstate__ k (RBF.__getstate__ self))) = false /\
      psicomp (RBF.__setstate__ k (RBF.__getstate__ self)) = PSICOMP_RBF)) /\
  (useGPU (base self) = false ->
   RBF.__getstate__ self = super_getstate self).
Proof.
  unfold RBF.__getstate__. split; intros Hgpu; rewrite Hgpu; [| reflexivity].
  assert (H1 : (<["useGPU" := VBool false]>
                  (<["psicomp" := VPsicomp PSICOMP_RBF]> (super_getstate self))
                : gmap string pyval) !! "useGPU" = Some (VBool false))
    by apply lookup_insert_eq.
  assert (H2 : (<["useGPU" := VBool false]>
                  (<["psicomp" := VPsicomp PSICOMP_RBF]> (super_getstate self))
                : gmap string pyval) !! "psicomp"
               = Some (VPsicomp PSICOMP_RBF)).
  { rewrite lookup_insert_ne by discriminate. apply lookup_insert_eq. }
  split; [exact H1 |]. split; [exact H2 |]. split.
  - intros key Hk1 Hk2.
    rewrite lookup_insert_ne by congruence.
    rewrite lookup_insert_ne by congruence. reflexivity.
  - intros Hparent k. unfold RBF.__setstate__.
    apply (Hparent _ _ false PSICOMP_RBF H1 H2).
Qed.

End Pickling.

Lemma getstate_spec_witness :
  RBF.__getstate__ (collab := example_collaborators) example_gpu_rbf !! "useGPU"
    = Some (VBool false) /\
  RBF.__getstate__ (collab := example_collaborators) example_gpu_rbf !! "name"
    = Some (VStr "rbf") /\
  psicomp (RBF.__setstate__ (collab := example_collaborators) example_gpu_rbf
             (RBF.__getstate__ (collab := example_collaborators)
                example_gpu_rbf)) = PSICOMP_RBF.
Proof.
  destruct (proj1 (getstate_spec (collab := example_collaborators)
                     example_gpu_rbf) eq_refl) as [H1 [_ [H3 H4]]].
  split; [exact H1 |]. split.
  - rewrite H3 by discriminate. reflexivity.
  - apply H4. intros k state b pc Hb Hpc. simpl.
    unfold example_setstate. rewrite Hb, Hpc. split; reflexivity.
Defined.

(** ** Serialization *)

Section Serialization.
Context {collab : Collaborators}.

(** What [to_dict] puts in the dictionary, in the three classes: the name of
    the class, the flag, and in inverse-lengthscale mode with one [inv_l] the
    lengthscale [sqrt(1 / inv_l)]. *)
Lemma add_inv_l_keys (self : rbf) (d0 d : gmap string pyval) (c : string) :
  d0 !! "class" = Some (VStr c) ->
  RBF.add_inv_l self d0 = Ok d ->
  d !! "class" = Some (VStr c) /\
  d !! "inv_l" = Some (VBool (use_invLengthscale self)) /\
  (use_invLengthscale self = true ->
   exists p x, inv_l self = Some p /\ values p = [x] /\
               d !! "lengthscale" = Some (VFloat (sqrt (1 / x)))).
Proof.
  intros Hc. unfold RBF.add_inv_l, RBF.get_inv_l.
  destruct (use_invLengthscale self) eqn:Huse.
  - destruct (inv_l self) as [p |]; simpl; [| discriminate].
    destruct (values p) as [| x [| y l]] eqn:Hv; simpl; try discriminate.
    intros H. injection H as <-. repeat split.
    + rewrite !lookup_insert_ne by discriminate. exact Hc.
    + rewrite lookup_insert_ne by discriminate. apply lookup_insert_eq.
    + intros _. exists p, x. repeat split; [exact Hv |].
      apply lookup_insert_eq.
  - intros H. injection H as <-. repeat split.
    + rewrite lookup_insert_ne by discriminate. exact Hc.
    + apply lookup_insert_eq.
    + discriminate.
Qed.

Lemma to_dict_keys (self : rbf) (d : gmap string pyval) :
  RBF.to_dict self = Ok d ->
  d !! "class" = Some (VStr "GPy.kern.RBF") /\
  d !! "inv_l" = Some (VBool (use_invLengthscale self)) /\
  (use_invLengthscale self = true ->
   exists p x, inv_l self = Some p /\ values p = [x] /\
               d !! "lengthscale" = Some (VFloat (sqrt (1 / x)))).
Proof.
  unfold RBF.to_dict. apply add_inv_l_keys. apply lookup_insert_eq.
Qed.

(** The dictionary of a kernel-kernel object is a function of its [RBF] part:
    neither the metric nor the distance builder is in it. *)
Lemma kk_to_dict_forgets (k1 k2 : rbf_kernel_kernel) :
  kk_rbf k1 = kk_rbf k2 ->
  RBFKernelKernel.to_dict k1 = RBFKernelKernel.to_dict k2.
Proof. unfold RBFKernelKernel.to_dict. intros ->. reflexivity. Qed.

Lemma db_to_dict_forgets (k1 k2 : rbf_distance_builder_kernel_kernel) :
  db_rbf k1 = db_rbf k2 ->
  RBFDistanceBuilderKernelKernel.to_dict k1 =
  RBFDistanceBuilderKernelKernel.to_dict k2.
Proof.
  unfold RBFDistanceBuilderKernelKernel.to_dict. intros ->. reflexivity.
Qed.

(** C7, where the code departs from it.  Two distance-builder kernels with
    different tables, and two kernel kernels with different metrics, have the
    same dictionary, although the first two give different distances: no
    function of the dictionary rebuilds both.  And [to_dict] raises on a
    kernel in inverse-lengthscale mode with two lengthscales. *)
Theorem to_dict_not_sufficient :
  RBFDistanceBuilderKernelKernel.to_dict example_distance_builder_kernel =
  RBFDistanceBuilderKernelKernel.to_dict example_zero_builder_kernel /\
  RBFDistanceBuilderKernelKernel._unscaled_dist example_distance_builder_kernel
    (index_column [0%nat; 1%nat]) None <>
  RBFDistanceBuilderKernelKernel._unscaled_dist example_zero_builder_kernel
    (index_column [0%nat; 1%nat]) None /\
  RBFKernelKernel.to_dict example_kernel_kernel =
  RBFKernelKernel.to_dict example_cityblock_kernel /\
  dist_metric example_kernel_kernel <> dist_metric example_cityblock_kernel /\
  (forall from_dict : gmap string pyval -> rbf_distance_builder_kernel_kernel,
     ~ (forall k d, RBFDistanceBuilderKernelKernel.to_dict k = Ok d ->
                    forall X, RBFDistanceBuilderKernelKernel._unscaled_dist
                                (from_dict d) X None =
                              RBFDistanceBuilderKernelKernel._unscaled_dist
                                k X None)) /\
  RBF.to_dict example_ARD_inv_rbf = Raise TypeError.
Proof.
  assert (Hd : RBFDistanceBuilderKernelKernel._unscaled_dist
                 example_distance_builder_kernel
                 (index_column [0%nat; 1%nat]) None <>
               RBFDistanceBuilderKernelKernel._unscaled_dist
                 example_zero_builder_kernel
                 (index_column [0%nat; 1%nat]) None).
  { change (RBFDistanceBuilderKernelKernel._unscaled_dist
              example_distance_builder_kernel
              (index_column [0%nat; 1%nat])
              (Some (index_column [0%nat; 1%nat])) <>
            RBFDistanceBuilderKernelKernel._unscaled_dist
              example_zero_builder_kernel
              (index_column [0%nat; 1%nat])
              (Some (index_column [0%nat; 1%nat]))).
    rewrite (db_unscaled_dist_submatrix example_distance_builder_kernel 4
               _ _ [0%nat; 1%nat] [0%nat; 1%nat])
      by (try reflexivity; repeat constructor).
    rewrite (db_unscaled_dist_submatrix example_zero_builder_kernel 4
               _ _ [0%nat; 1%nat] [0%nat; 1%nat])
      by (try reflexivity; repeat constructor).
    intros H. injection H as H.
    unfold get2, ncols in H. simpl in H. lra. }
  split; [apply db_to_dict_forgets; reflexivity |].
  split; [exact Hd |].
  split; [apply kk_to_dict_forgets; reflexivity |].
  split; [discriminate |].
  split; [| reflexivity].
  intros from_dict Hall.
  assert (Hok : exists d, RBFDistanceBuilderKernelKernel.to_dict
                            example_distance_builder_kernel = Ok d)
    by (eexists; reflexivity).
  destruct Hok as [d Hd1].
  assert (Hd2 : RBFDistanceBuilderKernelKernel.to_dict
                  example_zero_builder_kernel = Ok d)
    by (rewrite <- Hd1; apply db_to_dict_forgets; reflexivity).
  apply Hd.
  rewrite <- (Hall _ d Hd1 (index_column [0%nat; 1%nat])).
  rewrite <- (Hall _ d Hd2 (index_column [0%nat; 1%nat])).
  reflexivity.
Qed.

End Serialization.

(** ** Caching of the scaled distance *)

Section CacheTransparency.
Context {K : Type}.
Variable operation : K -> ndarray -> option ndarray -> result ndarray.
Variable heap : nat -> ndarray.
Variable set_ls : K -> list R -> K.

Lemma key_eqb_eq (k1 k2 : Caching.cache_key) :
  Caching.key_eqb k1 k2 = true -> k1 = k2.
Proof.
  destruct k1 as [a [b |]], k2 as [a' [b' |]]; unfold Caching.key_eqb; simpl;
    intros H; apply andb_prop in H; destruct H as [H1 H2];
    apply Nat.eqb_eq in H1; subst; try discriminate; try reflexivity.
  apply Nat.eqb_eq in H2. subst. reflexivity.
Qed.

Lemma cache_lookup_In (k : Caching.cache_key) (c : Caching.store) (v : ndarray) :
  Caching.cache_lookup k c = Some v -> In (k, v) c.
Proof.
  induction c as [| [k' v'] c IH]; simpl; [discriminate |].
  destruct (Caching.key_eqb k k') eqn:He.
  - intros H. injection H as <-. apply key_eqb_eq in He. subst. left. reflexivity.
  - intros H. right. apply IH. exact H.
Qed.

Lemma In_skipn {A : Type} (n : nat) (l : list A) (x : A) :
  In x (skipn n l) -> In x l.
Proof.
  intros H. rewrite <- (firstn_skipn n l). apply in_or_app. right. exact H.
Qed.

Lemma cache_insert_In (limit : nat) (k : Caching.cache_key) (v : ndarray)
    (c : Caching.store) (e : Caching.cache_key * ndarray) :
  In e (Caching.cache_insert limit k v c) -> In e c \/ e = (k, v).
Proof.
  unfold Caching.cache_insert. intros H. apply In_skipn in H.
  apply in_app_or in H. destruct H as [H | [H | []]]; [left | right]; auto.
Qed.

(** The store never holds more than [limit] results. *)
Lemma cache_insert_length (limit : nat) (k : Caching.cache_key) (v : ndarray)
    (c : Caching.store) :
  (length (Caching.cache_insert limit k v c) <= limit)%nat.
Proof.
  unfold Caching.cache_insert. rewrite List.length_skipn. lia.
Qed.

Lemma Cache_this_valid (limit : nat) (self : Caching.cached K) (X : nat)
    (X2 : option nat) :
  cache_valid operation heap self ->
  fst (Caching.Cache_this operation heap limit self X X2) =
    Caching.uncached_call operation heap (Caching.kernel self) X X2 /\
  Caching.kernel (snd (Caching.Cache_this operation heap limit self X X2)) =
    Caching.kernel self /\
  cache_valid operation heap
    (snd (Caching.Cache_this operation heap limit self X X2)).
Proof.
  intros Hv. unfold Caching.Cache_this.
  destruct (Caching.cache_lookup (X, X2) (Caching.cache self)) as [v |] eqn:Hl.
  - simpl. apply cache_lookup_In in Hl.
    split; [symmetry; exact (Hv _ _ Hl) |]. split; [reflexivity | exact Hv].
  - destruct (Caching.uncached_call operation heap (Caching.kernel self) X X2)
      as [v | e] eqn:Hc; simpl.
    + split; [reflexivity |]. split; [reflexivity |].
      intros k' v' Hin. simpl in Hin. apply cache_insert_In in Hin.
      destruct Hin as [Hin | Heq].
      * exact (Hv _ _ Hin).
      * injection Heq as -> ->. simpl. exact Hc.
    + split; [reflexivity |]. split; [reflexivity | exact Hv].
Qed.

Lemma reset_valid (self : Caching.cached K) (v : list R) :
  cache_valid operation heap (Caching.lengthscale_changed set_ls self v).
Proof. intros k w H. destruct H. Qed.

(** From any state in which the stored results are right, the run with the
    cache gives the results of the run without. *)
Lemma run_transparent (limit : nat) (evs : list Caching.event)
    (self : Caching.cached K) :
  cache_valid operation heap self ->
  Caching.run (Caching.Cache_this operation heap limit) set_ls self evs =
  Caching.run_uncached operation heap set_ls (Caching.kernel self) evs.
Proof.
  revert self. induction evs as [| [X X2 | v] evs IH]; intros self Hv.
  - reflexivity.
  - simpl. destruct (Cache_this_valid limit self X X2 Hv) as [H1 [H2 H3]].
    rewrite H1. f_equal. rewrite (IH _ H3), H2. reflexivity.
  - simpl. rewrite (IH _ (reset_valid self v)). reflexivity.
Qed.

End CacheTransparency.

Section ScaledDistanceCache.
Context {collab : Collaborators}.


End ScaledDistanceCache.

(** * Further properties *)

(** ** The shape of the radial functions *)

Section RadialShape.

Lemma exp_le (x y : R) : x <= y -> exp x <= exp y.
Proof.
  intros [H | ->]; [left; apply exp_increasing; exact H | right; reflexivity].
Qed.

Lemma K_of_r_pos (self : rbf) (r : R) :
  0 < variance (base self) -> 0 < RBF.K_of_r self r.
Proof.
  intros Hv. unfold RBF.K_of_r.
  apply Rmult_lt_0_compat; [exact Hv | apply exp_pos].
Qed.

Lemma K_of_r_at_zero (self : rbf) : RBF.K_of_r self 0 = variance (base self).
Proof.
  unfold RBF.K_of_r.
  replace (- 0.5 * 0 ^ 2) with 0 by (simpl; lra). rewrite exp_0. lra.
Qed.

Lemma K_of_r_le_variance (self : rbf) (r : R) :
  0 < variance (base self) -> RBF.K_of_r self r <= variance (base self).
Proof.
  intros Hv. unfold RBF.K_of_r.
  assert (H1 : exp (- 0.5 * r ^ 2) <= 1).
  { rewrite <- exp_0. apply exp_le. simpl. nra. }
  nra.
Qed.





End RadialShape.





(** ** The spectrum *)

Section Spectrum.


End Spectrum.


(** ** More on the inverse lengthscale *)

Section InverseLengthscaleMore.
Context {collab : Collaborators}.

Lemma sqrt_guard : sqrt 1e-200 = 1e-100.
Proof. apply sqrt_lem_1; lra. Qed.

Lemma guarded_inverse_sqrt_range (v : R) :
  0 <= v -> 0 < 1 / sqrt (v + 1e-200) <= 1e100.
Proof.
  intros Hv.
  assert (Hs : 1e-100 <= sqrt (v + 1e-200))
    by (rewrite <- sqrt_guard; apply sqrt_le_1_alt; lra).
  assert (Hp : 0 < sqrt (v + 1e-200)) by lra.
  split.
  - unfold Rdiv. rewrite Rmult_1_l. apply Rinv_0_lt_compat. exact Hp.
  - apply (Rmult_le_reg_r (sqrt (v + 1e-200))); [exact Hp |].
    replace (1 / sqrt (v + 1e-200) * sqrt (v + 1e-200)) with 1
      by (field; lra).
    nra.
Qed.

Lemma parameters_changed_inverse (self : rbf) (p : Param) :
  (forall st, values (lengthscale (Stationary_parameters_changed st)) =
              values (lengthscale st)) ->
  use_invLengthscale self = true ->
  inv_l self = Some p ->
  length (values p) = length (values (lengthscale (base self))) ->
  exists self',
    RBF.parameters_changed self = Ok self' /\
    values (lengthscale (base self')) =
      map (fun v => 1 / sqrt (v + 1e-200)) (values p).
Proof.
  intros Hparent Huse Hinv Hlen.
  unfold RBF.parameters_changed, RBF.get_inv_l.
  rewrite Huse, Hinv. simpl.
  rewrite assign_slice_same_length by (rewrite length_map; exact Hlen).
  simpl. eexists. split; [reflexivity |]. simpl.
  rewrite Hparent. reflexivity.
Qed.

(** X6.  The guard keeps the lengthscale finite: in inverse-lengthscale
    mode, for entries of [inv_l] that are positive or zero,
    [parameters_changed] leaves lengthscales that are positive and at most
    [1e100]. *)
Theorem parameters_changed_guard (self : rbf) (p : Param) :
  (forall st, values (lengthscale (Stationary_parameters_changed st)) =
              values (lengthscale st)) ->
  use_invLengthscale self = true ->
  inv_l self = Some p ->
  length (values p) = length (values (lengthscale (base self))) ->
  Forall (fun v => 0 <= v) (values p) ->
  exists self',
    RBF.parameters_changed self = Ok self' /\
    Forall (fun l => 0 < l <= 1e100) (values (lengthscale (base self'))).
Proof.
  intros Hparent Huse Hinv Hlen Hpos.
  destruct (parameters_changed_inverse self p Hparent Huse Hinv Hlen)
    as [self' [Hpc Hv]].
  exists self'. split; [exact Hpc |]. rewrite Hv.
  clear - Hpos. induction Hpos as [| v l Hv _ IH]; simpl; constructor.
  - apply guarded_inverse_sqrt_range. exact Hv.
  - exact IH.
Qed.

Lemma inverse_square_round_trip (l : R) :
  0 < l ->
  0 < 1 / sqrt (1 / l ^ 2 + 1e-200) < l /\
  1 / sqrt (1 / l ^ 2 + 1e-200) * (1 / sqrt (1 / l ^ 2 + 1e-200))
    * (1 / l ^ 2 + 1e-200) = 1.
Proof.
  intros Hl.
  assert (Hx : 0 < 1 / l ^ 2).
  { unfold Rdiv. rewrite Rmult_1_l. apply Rinv_0_lt_compat. simpl. nra. }
  destruct (guarded_inverse_sqrt_bounds (1 / l ^ 2) 1e-200 Hx) as [[H0 H1] _];
    [lra |].
  assert (Hsq : sqrt (1 / l ^ 2) = 1 / l).
  { apply sqrt_lem_1; [lra | | simpl; field; lra].
    unfold Rdiv. rewrite Rmult_1_l. left. apply Rinv_0_lt_compat. exact Hl. }
  rewrite Hsq in H1.
  replace (1 / (1 / l)) with l in H1 by (field; lra).
  split; [split; assumption |].
  set (y := 1 / l ^ 2 + 1e-200) in *.
  assert (Hy : 0 < y) by (unfold y; lra).
  assert (Hsy : 0 < sqrt y) by (apply sqrt_lt_R0; exact Hy).
  assert (Hyy : sqrt y * sqrt y = y) by (apply sqrt_sqrt; lra).
  rewrite <- Hyy at 3. field. lra.
Qed.


End InverseLengthscaleMore.

Lemma parameters_changed_guard_witness :
  exists self',
    RBF.parameters_changed (collab := example_collaborators) example_inv_rbf
      = Ok self' /\
    Forall (fun l => 0 < l <= 1e100) (values (lengthscale (base self'))).
Proof.
  apply (parameters_changed_guard (collab := example_collaborators)
           example_inv_rbf {| values := [4]; gradient := [0] |}
           (fun st => eq_refl) eq_refl eq_refl eq_refl).
  simpl. constructor; [lra | constructor].
Defined.


(** ** More on serialization *)

Section SerializationMore.
Context {collab : Collaborators}.

Lemma add_inv_l_frame (self : rbf) (d0 d : gmap string pyval) :
  RBF.add_inv_l self d0 = Ok d ->
  (forall key : string,
     key <> "inv_l" -> key <> "lengthscale" -> d !! key = d0 !! key) /\
  (use_invLengthscale self = false ->
   d !! "lengthscale" = d0 !! "lengthscale").
Proof.
  unfold RBF.add_inv_l, RBF.get_inv_l.
  destruct (use_invLengthscale self).
  - destruct (inv_l self) as [p |]; simpl; [| discriminate].
    destruct (float (values p)) as [x | e]; simpl; [| discriminate].
    intros H. injection H as <-. split; [| discriminate].
    intros key H1 H2. rewrite !lookup_insert_ne by congruence. reflexivity.
  - intros H. injection H as <-. split.
    + intros key H1 H2. rewrite lookup_insert_ne by congruence. reflexivity.
    + intros _. rewrite lookup_insert_ne by discriminate. reflexivity.
Qed.

Lemma float_ok_iff (a : list R) :
  (exists x, float a = Ok x) <-> (exists x, a = [x]).
Proof.
  split.
  - intros [x H]. destruct a as [| y [| z a]]; simpl in H; try discriminate.
    exists y. reflexivity.
  - intros [x ->]. exists x. reflexivity.
Qed.

Lemma add_inv_l_ok_iff (self : rbf) (d0 : gmap string pyval) :
  (exists d, RBF.add_inv_l self d0 = Ok d) <->
  (use_invLengthscale self = false \/
   exists p x, inv_l self = Some p /\ values p = [x]).
Proof.
  unfold RBF.add_inv_l, RBF.get_inv_l.
  destruct (use_invLengthscale self).
  - destruct (inv_l self) as [p |]; simpl.
    + split.
      * intros [d H]. right.
        destruct (values p) as [| y [| z a]] eqn:Hv; simpl in H;
          try discriminate.
        exists p, y. split; [reflexivity | exact Hv].
      * intros [H | [q [x [Hq Hx]]]]; [discriminate |].
        injection Hq as <-. rewrite Hx. simpl. eexists. reflexivity.
    + split.
      * intros [d H]. discriminate.
      * intros [H | [q [x [Hq _]]]]; discriminate.
  - split; [intros _; left; reflexivity | intros _; eexists; reflexivity].
Qed.

Lemma add_inv_l_raises (self : rbf) (d0 : gmap string pyval) (e : exn) :
  RBF.add_inv_l self d0 = Raise e -> e = AttributeError \/ e = TypeError.
Proof.
  unfold RBF.add_inv_l, RBF.get_inv_l.
  destruct (use_invLengthscale self); [| discriminate].
  destruct (inv_l self) as [p |]; simpl.
  - destruct (values p) as [| y [| z a]]; simpl; intros H;
      try discriminate; injection H as <-; right; reflexivity.
  - intros H. injection H as <-. left. reflexivity.
Qed.


(** X9.  [to_dict] of the three classes changes the dictionary of the parent
    at ["class"], ["inv_l"] and ["lengthscale"] only; on a kernel that is not
    in inverse-lengthscale mode it always returns, and ["lengthscale"] is the
    entry of the parent as well. *)
Theorem to_dict_frame (self : rbf) (kk : rbf_kernel_kernel)
    (db : rbf_distance_builder_kernel_kernel) :
  (forall d (key : string),
     RBF.to_dict self = Ok d ->
     key <> "class" -> key <> "inv_l" -> key <> "lengthscale" ->
     d !! key = Stationary_save_to_input_dict (base self) !! key) /\
  (forall d (key : string),
     RBFKernelKernel.to_dict kk = Ok d ->
     key <> "class" -> key <> "inv_l" -> key <> "lengthscale" ->
     d !! key = Stationary_save_to_input_dict (base (kk_rbf kk)) !! key) /\
  (forall d (key : string),
     RBFDistanceBuilderKernelKernel.to_dict db = Ok d ->
     key <> "class" -> key <> "inv_l" -> key <> "lengthscale" ->
     d !! key = Stationary_save_to_input_dict (base (db_rbf db)) !! key) /\
  (use_invLengthscale self = false ->
   exists d,
     RBF.to_dict self = Ok d /\
     d !! "lengthscale" =
       Stationary_save_to_input_dict (base self) !! "lengthscale").
Proof.
  repeat split.
  - intros d key Hd H1 H2 H3. unfold RBF.to_dict in Hd.
    rewrite (proj1 (add_inv_l_frame _ _ _ Hd) key H2 H3).
    apply lookup_insert_ne. congruence.
  - intros d key Hd H1 H2 H3. unfold RBFKernelKernel.to_dict in Hd.
    rewrite (proj1 (add_inv_l_frame _ _ _ Hd) key H2 H3).
    apply lookup_insert_ne. congruence.
  - intros d key Hd H1 H2 H3.
    unfold RBFDistanceBuilderKernelKernel.to_dict in Hd.
    rewrite (proj1 (add_inv_l_frame _ _ _ Hd) key H2 H3).
    apply lookup_insert_ne. congruence.
  - intros Huse.
    assert (Hok : exists d, RBF.to_dict self = Ok d)
      by (apply add_inv_l_ok_iff; left; exact Huse).
    destruct Hok as [d Hd]. exists d. split; [exact Hd |].
    unfold RBF.to_dict in Hd.
    rewrite (proj2 (add_inv_l_frame _ _ _ Hd) Huse).
    apply lookup_insert_ne. discriminate.
Qed.


(** X11.  On the same [RBF] part the dictionaries of the three classes differ
    at ["class"] only, where each has the name of its class. *)
Theorem to_dict_variants_agree (kk : rbf_kernel_kernel)
    (db : rbf_distance_builder_kernel_kernel) (d : gmap string pyval) :
  db_rbf db = kk_rbf kk ->
  RBF.to_dict (kk_rbf kk) = Ok d ->
  exists d1 d2,
    RBFKernelKernel.to_dict kk = Ok d1 /\
    RBFDistanceBuilderKernelKernel.to_dict db = Ok d2 /\
    d !! "class" = Some (VStr "GPy.kern.RBF") /\
    d1 !! "class" = Some (VStr "GPy.kern.RBFKernelKernel") /\
    d2 !! "class" = Some (VStr "GPy.kern.RBFDistanceBuilderKernelKernel") /\
    forall key : string,
      key <> "class" -> d1 !! key = d !! key /\ d2 !! key = d !! key.
Proof.
  intros Hdb Hd.
  assert (Hcond : use_invLengthscale (kk_rbf kk) = false \/
                  exists p x, inv_l (kk_rbf kk) = Some p /\ values p = [x])
    by (apply (add_inv_l_ok_iff (kk_rbf kk)
                 (<["class" := VStr "GPy.kern.RBF"]>
                    (Stationary_save_to_input_dict (base (kk_rbf kk)))));
        exists d; exact Hd).
  destruct (proj2 (add_inv_l_ok_iff (kk_rbf kk)
                     (<["class" := VStr "GPy.kern.RBFKernelKernel"]>
                        (Stationary_save_to_input_dict (base (kk_rbf kk)))))
              Hcond) as [d1 Hd1].
  destruct (proj2 (add_inv_l_ok_iff (kk_rbf kk)
                     (<["class" := VStr "GPy.kern.RBFDistanceBuilderKernelKernel"]>
                        (Stationary_save_to_input_dict (base (kk_rbf kk)))))
              Hcond) as [d2 Hd2].
  exists d1, d2.
  unfold RBFKernelKernel.to_dict, RBFDistanceBuilderKernelKernel.to_dict.
  rewrite Hdb. split; [exact Hd1 |]. split; [exact Hd2 |].
  unfold RBF.to_dict in Hd.
  split; [apply (add_inv_l_keys _ _ _ _ (lookup_insert_eq _ _ _) Hd) |].
  split; [apply (add_inv_l_keys _ _ _ _ (lookup_insert_eq _ _ _) Hd1) |].
  split; [apply (add_inv_l_keys _ _ _ _ (lookup_insert_eq _ _ _) Hd2) |].
  intros key Hk.
  destruct (add_inv_l_keys _ _ _ _ (lookup_insert_eq _ _ _) Hd)
    as [_ [Hf Hl]].
  destruct (add_inv_l_keys _ _ _ _ (lookup_insert_eq _ _ _) Hd1)
    as [_ [Hf1 Hl1]].
  destruct (add_inv_l_keys _ _ _ _ (lookup_insert_eq _ _ _) Hd2)
    as [_ [Hf2 Hl2]].
  destruct (add_inv_l_frame _ _ _ Hd) as [Hfr Hp].
  destruct (add_inv_l_frame _ _ _ Hd1) as [Hfr1 Hp1].
  destruct (add_inv_l_frame _ _ _ Hd2) as [Hfr2 Hp2].
  destruct (decide (key = "inv_l")) as [-> | Hk1];
    [rewrite Hf, Hf1, Hf2; split; reflexivity |].
  destruct (decide (key = "lengthscale")) as [-> | Hk2].
  - destruct (use_invLengthscale (kk_rbf kk)) eqn:Huse.
    + destruct (Hl eq_refl) as [p [x [Hp0 [Hx0 ->]]]].
      destruct (Hl1 eq_refl) as [p1 [x1 [Hp10 [Hx1 ->]]]].
      destruct (Hl2 eq_refl) as [p2 [x2 [Hp20 [Hx2 ->]]]].
      rewrite Hp0 in Hp10, Hp20. injection Hp10 as <-. injection Hp20 as <-.
      rewrite Hx0 in Hx1, Hx2. injection Hx1 as <-. injection Hx2 as <-.
      split; reflexivity.
    + rewrite (Hp eq_refl), (Hp1 eq_refl), (Hp2 eq_refl).
      rewrite !lookup_insert_ne by discriminate. split; reflexivity.
  - rewrite (Hfr key Hk1 Hk2), (Hfr1 key Hk1 Hk2), (Hfr2 key Hk1 Hk2).
    rewrite !lookup_insert_ne by congruence. split; reflexivity.
Qed.

End SerializationMore.


Lemma to_dict_variants_agree_witness :
  exists d1 d2,
    RBFKernelKernel.to_dict (collab := example_collaborators)
      example_kernel_kernel = Ok d1 /\
    RBFDistanceBuilderKernelKernel.to_dict (collab := example_collaborators)
      example_distance_builder_kernel = Ok d2 /\
    d1 !! "inv_l" = d2 !! "inv_l".
Proof.
  destruct (to_dict_variants_agree (collab := example_collaborators)
              example_kernel_kernel example_distance_builder_kernel _
              eq_refl eq_refl)
    as [d1 [d2 [H1 [H2 [_ [_ [_ H]]]]]]].
  exists d1, d2. split; [exact H1 |]. split; [exact H2 |].
  destruct (H "inv_l" ltac:(discriminate)) as [Ha Hb].
  rewrite Ha, Hb. reflexivity.
Defined.

(** ** More on the gradient methods *)

Section GradientsMore.
Context {collab : Collaborators}.

(** The last statement of the gradient methods writes the gradient of
    [inv_l] and nothing else. *)
Lemma project_inv_l_gradient_frame (self k' : rbf) (g : list R) :
  RBF.project_inv_l_gradient self g = Ok k' ->
  base k' = base self /\
  psicomp k' = psicomp self /\
  use_invLengthscale k' = use_invLengthscale self /\
  option_map values (inv_l k') = option_map values (inv_l self).
Proof.
  unfold RBF.project_inv_l_gradient, RBF.get_inv_l.
  destruct (use_invLengthscale self) eqn:Huse.
  - destruct (mul_broadcast g _) as [v | e]; simpl; [| discriminate].
    destruct (inv_l self) as [p |] eqn:Hp; simpl; [| discriminate].
    destruct (assign_slice (gradient p) v) as [g' | e]; simpl; [| discriminate].
    intros H. injection H as <-. simpl. rewrite Huse. repeat split.
  - intros H. injection H as <-. rewrite Huse. repeat split.
Qed.

(** X12.  Whenever [update_gradients_full] or [update_gradients_diag]
    returns, in either mode, the step of the parent has returned and the
    kernel has the state the parent left, the same psi-statistics computer,
    mode and values of [inv_l]: beyond the parent's step only the gradient of
    [inv_l] is written.  When the parent raises, they raise the same. *)
Theorem update_gradients_frame (self : rbf) (dL X : ndarray)
    (X2 : option ndarray) :
  (forall k', RBF.update_gradients_full self dL X X2 = Ok k' ->
     Stationary_update_gradients_full (base self) dL X X2 = Ok (base k') /\
     psicomp k' = psicomp self /\
     use_invLengthscale k' = use_invLengthscale self /\
     option_map values (inv_l k') = option_map values (inv_l self)) /\
  (forall k', RBF.update_gradients_diag self dL X = Ok k' ->
     Stationary_update_gradients_diag (base self) dL X = Ok (base k') /\
     psicomp k' = psicomp self /\
     use_invLengthscale k' = use_invLengthscale self /\
     option_map values (inv_l k') = option_map values (inv_l self)) /\
  (forall e, Stationary_update_gradients_full (base self) dL X X2 = Raise e ->
     RBF.update_gradients_full self dL X X2 = Raise e) /\
  (forall e, Stationary_update_gradients_diag (base self) dL X = Raise e ->
     RBF.update_gradients_diag self dL X = Raise e).
Proof.
  split; [| split; [| split]].
  - intros k'. unfold RBF.update_gradients_full.
    destruct (Stationary_update_gradients_full (base self) dL X X2)
      as [st | e]; simpl; [| discriminate].
    intros H. apply project_inv_l_gradient_frame in H.
    destruct H as [H1 [H2 [H3 H4]]]. simpl in *.
    rewrite H1. repeat split; assumption.
  - intros k'. unfold RBF.update_gradients_diag.
    destruct (Stationary_update_gradients_diag (base self) dL X)
      as [st | e]; simpl; [| discriminate].
    intros H. apply project_inv_l_gradient_frame in H.
    destruct H as [H1 [H2 [H3 H4]]]. simpl in *.
    rewrite H1. repeat split; assumption.
  - intros e H. unfold RBF.update_gradients_full. rewrite H. reflexivity.
  - intros e H. unfold RBF.update_gradients_diag. rewrite H. reflexivity.
Qed.


End GradientsMore.


(** ** More on the lookup in the distance table *)

Section LookupMore.
Context {collab : Collaborators}.

Lemma normalize_index_wrap (n : nat) (i : Z) :
  in_numpy_range n i ->
  normalize_index n i = Ok (wrap_index n i) /\ (wrap_index n i < n)%nat.
Proof.
  unfold in_numpy_range, normalize_index, wrap_index. intros Hi.
  destruct (i <? 0)%Z eqn:Hneg.
  - apply Z.ltb_lt in Hneg.
    replace (0 <=? i)%Z with false by (symmetry; apply Z.leb_gt; lia).
    replace (- Z.of_nat n <=? i)%Z with true by (symmetry; apply Z.leb_le; lia).
    simpl. split; [reflexivity | lia].
  - apply Z.ltb_ge in Hneg.
    replace (0 <=? i)%Z with true by (symmetry; apply Z.leb_le; lia).
    replace (i <? Z.of_nat n)%Z with true by (symmetry; apply Z.ltb_lt; lia).
    simpl. split; [reflexivity | lia].
Qed.

Lemma mapM_normalize_wrap (n : nat) (l : list Z) :
  Forall (in_numpy_range n) l ->
  mapM (normalize_index n) l = Ok (map (wrap_index n) l) /\
  Forall (fun i => (i < n)%nat) (map (wrap_index n) l).
Proof.
  induction 1 as [| i l Hi _ [IH1 IH2]]; simpl.
  - split; [reflexivity | constructor].
  - destruct (normalize_index_wrap n i Hi) as [H1 H2].
    rewrite H1. simpl. rewrite IH1. simpl.
    split; [reflexivity | constructor; assumption].
Qed.

Lemma take_rows_cols_wrap (table : ndarray) (n : nat) (zr zc : list Z) :
  shape table = [n; n] -> wf_ndarray table ->
  Forall (in_numpy_range n) zr -> Forall (in_numpy_range n) zc ->
  bind (take_rows table zr) (fun r => take_cols r zc) =
  Ok (submatrix table (map (wrap_index n) zr) (map (wrap_index n) zc)).
Proof.
  intros Hs Hwf Hzr Hzc.
  destruct (mapM_normalize_wrap n zr Hzr) as [Hr Hrows].
  destruct (mapM_normalize_wrap n zc Hzc) as [Hc Hcols].
  rewrite <- (take_rows_cols_submatrix table n _ _ Hs Hwf Hrows Hcols).
  unfold take_rows, nrows. rewrite Hs. simpl nth.
  rewrite Hr, (mapM_normalize_nat n _ Hrows). simpl bind.
  unfold take_cols, ncols, nrows. simpl nth.
  rewrite Hc, (mapM_normalize_nat n _ Hcols). simpl bind.
  rewrite !length_map. reflexivity.
Qed.

Lemma trunc_spec (x : R) (z : Z) : truncates_to x z -> trunc x = z.
Proof.
  unfold truncates_to, trunc.
  intros [[H0 H] | [H0 H]]; destruct (Rle_dec 0 x) as [Hle | Hgt]; try lra.
  - apply Zfloor_eq. exact H.
  - apply Zceil_eq. exact H.
Qed.

Lemma astype_int_spec (l : list R) (zs : list Z) :
  Forall2 truncates_to l zs -> astype_int l = zs.
Proof.
  induction 1 as [| x z l zs Hx _ IH]; simpl; [reflexivity |].
  rewrite (trunc_spec x z Hx). f_equal. exact IH.
Qed.

Lemma astype_int_IZR (zs : list Z) : astype_int (map IZR zs) = zs.
Proof.
  unfold astype_int. rewrite map_map.
  induction zs as [| z zs IH]; simpl; [reflexivity |].
  rewrite trunc_IZR. f_equal. exact IH.
Qed.

(** X14.  Indices that count from the end are looked up, not refused: on a
    square [n] by [n] table, for integer indices in [-n <= i < n],
    [_unscaled_dist] returns the submatrix at the rows and columns [i], or
    [i + n] for a negative [i]. *)
Theorem unscaled_dist_wraps (self : rbf_distance_builder_kernel_kernel)
    (n : nat) (X X2 : ndarray) (zr zc : list Z) :
  shape (distance_builder self (n_models self)) = [n; n] ->
  wf_ndarray (distance_builder self (n_models self)) ->
  flatten X = map IZR zr ->
  flatten X2 = map IZR zc ->
  Forall (in_numpy_range n) zr ->
  Forall (in_numpy_range n) zc ->
  RBFDistanceBuilderKernelKernel._unscaled_dist self X (Some X2) =
  Ok (submatrix (distance_builder self (n_models self))
        (map (wrap_index n) zr) (map (wrap_index n) zc)).
Proof.
  intros Hs Hwf HX HX2 Hzr Hzc.
  rewrite (db_unscaled_dist_square self X (Some X2) n Hs).
  rewrite HX, HX2, !astype_int_IZR.
  apply take_rows_cols_wrap; assumption.
Qed.

(** X15.  [_unscaled_dist] looks at its arguments through
    [flatten().astype(int)] only: the shape of [X] and [X2] and the
    fractional parts of their entries play no part, an entry being taken as
    the integer towards zero. *)
Theorem unscaled_dist_truncates (self : rbf_distance_builder_kernel_kernel)
    (X X2 : ndarray) (zr zc : list Z) :
  Forall2 truncates_to (flatten X) zr ->
  Forall2 truncates_to (flatten X2) zc ->
  RBFDistanceBuilderKernelKernel._unscaled_dist self X (Some X2) =
  RBFDistanceBuilderKernelKernel._unscaled_dist self
    (integer_column zr) (Some (integer_column zc)).
Proof.
  intros HX HX2.
  unfold RBFDistanceBuilderKernelKernel._unscaled_dist.
  rewrite (astype_int_spec _ _ HX), (astype_int_spec _ _ HX2).
  unfold integer_column, flatten. simpl data.
  rewrite !astype_int_IZR. reflexivity.
Qed.

(** X16.  The matrix of the distances of models to themselves inherits the
    symmetry and the zero diagonal of the table: on a symmetric [n] by [n]
    table, [_unscaled_dist(X)] with indices below [n] is symmetric, and its
    diagonal is zero when the diagonal of the table is. *)
Theorem unscaled_dist_symmetric (self : rbf_distance_builder_kernel_kernel)
    (n : nat) (X : ndarray) (rows : list nat) :
  shape (distance_builder self (n_models self)) = [n; n] ->
  wf_ndarray (distance_builder self (n_models self)) ->
  flatten X = map (fun i => IZR (Z.of_nat i)) rows ->
  Forall (fun i => (i < n)%nat) rows ->
  (forall i j, (i < n)%nat -> (j < n)%nat ->
     get2 (distance_builder self (n_models self)) i j =
     get2 (distance_builder self (n_models self)) j i) ->
  exists r,
    RBFDistanceBuilderKernelKernel._unscaled_dist self X None = Ok r /\
    shape r = [length rows; length rows] /\
    (forall a b, (a < length rows)%nat -> (b < length rows)%nat ->
       get2 r a b = get2 r b a) /\
    ((forall i, (i < n)%nat ->
        get2 (distance_builder self (n_models self)) i i = 0) ->
     forall a, (a < length rows)%nat -> get2 r a a = 0).
Proof.
  intros Hs Hwf HX Hrows Hsym.
  exists (submatrix (distance_builder self (n_models self)) rows rows).
  assert (Hin : forall a, (a < length rows)%nat -> (nth a rows 0 < n)%nat).
  { intros a Ha. apply (proj1 (List.Forall_forall _ _) Hrows).
    apply nth_In. exact Ha. }
  split; [| split; [reflexivity | split]].
  - change (RBFDistanceBuilderKernelKernel._unscaled_dist self X None)
      with (RBFDistanceBuilderKernelKernel._unscaled_dist self X (Some X)).
    apply (db_unscaled_dist_submatrix self n); assumption.
  - intros a b Ha Hb. rewrite !submatrix_get2 by assumption.
    apply Hsym; apply Hin; assumption.
  - intros Hdiag a Ha. rewrite submatrix_get2 by assumption.
    apply Hdiag. apply Hin. exact Ha.
Qed.


End LookupMore.

Lemma unscaled_dist_wraps_witness :
  RBFDistanceBuilderKernelKernel._unscaled_dist example_distance_builder_kernel
    (integer_column [(-1)%Z]) (Some (integer_column [0%Z; (-4)%Z])) =
  Ok {| shape := [1%nat; 2%nat]; data := [3; 3] |}.
Proof.
  exact (unscaled_dist_wraps example_distance_builder_kernel 4
           (integer_column [(-1)%Z]) (integer_column [0%Z; (-4)%Z])
           [(-1)%Z] [0%Z; (-4)%Z] eq_refl eq_refl eq_refl eq_refl
           ltac:(repeat constructor; unfold in_numpy_range; lia)
           ltac:(repeat constructor; unfold in_numpy_range; lia)).
Defined.

Lemma unscaled_dist_truncates_witness :
  RBFDistanceBuilderKernelKernel._unscaled_dist example_distance_builder_kernel
    {| shape := [2%nat]; data := [0.9; - 0.5] |}
    (Some {| shape := [1%nat; 1%nat]; data := [2.5] |}) =
  RBFDistanceBuilderKernelKernel._unscaled_dist example_distance_builder_kernel
    (integer_column [0%Z; 0%Z]) (Some (integer_column [2%Z])).
Proof.
  apply (unscaled_dist_truncates example_distance_builder_kernel
           {| shape := [2%nat]; data := [0.9; - 0.5] |}
           {| shape := [1%nat; 1%nat]; data := [2.5] |}
           [0%Z; 0%Z] [2%Z]).
  - simpl. constructor; [left; lra |].
    constructor; [right; lra | constructor].
  - simpl. constructor; [left; lra | constructor].
Defined.

Lemma unscaled_dist_symmetric_witness :
  exists r,
    RBFDistanceBuilderKernelKernel._unscaled_dist
      example_distance_builder_kernel (index_column [0%nat; 2%nat]) None
      = Ok r /\
    shape r = [2%nat; 2%nat].
Proof.
  destruct (unscaled_dist_symmetric example_distance_builder_kernel 4
              (index_column [0%nat; 2%nat]) [0%nat; 2%nat]
              eq_refl eq_refl eq_refl)
    as [r [H1 [H2 _]]].
  - repeat constructor.
  - intros i j Hi Hj.
    do 4 (destruct i as [| i];
          [do 4 (destruct j as [| j]; [reflexivity |]); lia |]).
    lia.
  - exists r. split; [exact H1 | exact H2].
Defined.


(** ** More on the scaled distance *)

Section ScaledDistanceMore.
Context {collab : Collaborators}.

Lemma get2_divide_by_scalar (l : R) (m : ndarray) (a b : nat) :
  shape m <> [] ->
  get2 (divide_by_scalar l m) a b = get2 m a b / l.
Proof.
  intros Hs. unfold get2, ncols, divide_by_scalar, elementwise1. simpl.
  replace (broadcast_size1 (shape m)) with (shape m)
    by (destruct (shape m); [contradiction | reflexivity]).
  replace 0 with (0 / l) at 1 by (unfold Rdiv; ring).
  apply (map_nth (fun x => x / l)).
Qed.

Lemma get2_elementwise1 (f : R -> R) (m : ndarray) (a b : nat) :
  shape m <> [] ->
  (a * ncols m + b < length (data m))%nat ->
  get2 (elementwise1 f m) a b = f (get2 m a b).
Proof.
  intros Hs Hi. unfold get2, ncols, elementwise1. simpl.
  replace (broadcast_size1 (shape m)) with (shape m)
    by (destruct (shape m); [contradiction | reflexivity]).
  rewrite (nth_indep _ 0 (f 0)) by (rewrite length_map; exact Hi).
  apply map_nth.
Qed.

Lemma db_scaled_dist_submatrix (self : rbf_distance_builder_kernel_kernel)
    (n : nat) (X X2 : ndarray) (rows cols : list nat) (l : R) :
  shape (distance_builder self (n_models self)) = [n; n] ->
  wf_ndarray (distance_builder self (n_models self)) ->
  flatten X = map (fun i => IZR (Z.of_nat i)) rows ->
  flatten X2 = map (fun j => IZR (Z.of_nat j)) cols ->
  Forall (fun i => (i < n)%nat) rows ->
  Forall (fun j => (j < n)%nat) cols ->
  values (lengthscale (base (db_rbf self))) = [l] ->
  RBFDistanceBuilderKernelKernel._scaled_dist self X (Some X2) =
  Ok (divide_by_scalar l
        (submatrix (distance_builder self (n_models self)) rows cols)).
Proof.
  intros Hs Hwf HX HX2 Hrows Hcols Hl.
  rewrite db_scaled_dist_unfold, Hl.
  rewrite (db_unscaled_dist_submatrix self n X X2 rows cols) by assumption.
  reflexivity.
Qed.

(** X18.  Lookup and scaling compose: on a square [n] by [n] table, with
    indices below [n] and one lengthscale [l], [_scaled_dist(X, X2)] of the
    distance-builder kernel is the array of shape [(len X, len X2)] whose
    entry [(a, b)] is the entry [(X[a], X2[b])] of the table divided by
    [l]. *)
Theorem db_scaled_dist_entries (self : rbf_distance_builder_kernel_kernel)
    (n : nat) (X X2 : ndarray) (rows cols : list nat) (l : R) :
  shape (distance_builder self (n_models self)) = [n; n] ->
  wf_ndarray (distance_builder self (n_models self)) ->
  flatten X = map (fun i => IZR (Z.of_nat i)) rows ->
  flatten X2 = map (fun j => IZR (Z.of_nat j)) cols ->
  Forall (fun i => (i < n)%nat) rows ->
  Forall (fun j => (j < n)%nat) cols ->
  values (lengthscale (base (db_rbf self))) = [l] ->
  exists r,
    RBFDistanceBuilderKernelKernel._scaled_dist self X (Some X2) = Ok r /\
    shape r = [length rows; length cols] /\
    wf_ndarray r /\
    forall a b, (a < length rows)%nat -> (b < length cols)%nat ->
      get2 r a b =
      get2 (distance_builder self (n_models self))
           (nth a rows 0%nat) (nth b cols 0%nat) / l.
Proof.
  intros Hs Hwf HX HX2 Hrows Hcols Hl.
  eexists. split.
  - apply (db_scaled_dist_submatrix self n X X2 rows cols l); assumption.
  - split; [reflexivity |]. split.
    + unfold wf_ndarray, divide_by_scalar, elementwise1. simpl.
      rewrite length_map. apply submatrix_wf.
    + intros a b Ha Hb.
      rewrite get2_divide_by_scalar by discriminate.
      rewrite submatrix_get2 by assumption. reflexivity.
Qed.



End ScaledDistanceMore.

Lemma db_scaled_dist_entries_witness :
  exists r,
    RBFDistanceBuilderKernelKernel._scaled_dist example_distance_builder_kernel
      (index_column [0%nat; 2%nat]) (Some (index_column [1%nat; 3%nat]))
      = Ok r /\
    shape r = [2%nat; 2%nat] /\
    get2 r 1 0 = get2 example_table 2 1 / 2.
Proof.
  destruct (db_scaled_dist_entries example_distance_builder_kernel 4
              (index_column [0%nat; 2%nat]) (index_column [1%nat; 3%nat])
              [0%nat; 2%nat] [1%nat; 3%nat] 2
              eq_refl eq_refl eq_refl eq_refl
              ltac:(repeat constructor) ltac:(repeat constructor) eq_refl)
    as [r [H1 [H2 [_ H4]]]].
  exists r. split; [exact H1 |]. split; [exact H2 |].
  apply (H4 1%nat 0%nat); simpl; lia.
Defined.



(** ** Construction *)

Section Construction.
Context {collab : Collaborators}.


End Construction.
